(** * ZynqMP R5 remote processor driver: a shallow embedding

    Source: [drivers/remoteproc/zynqmp_r5_remoteproc.c].

    The driver is modelled as it is written: every C function is a
    computation in a small monad that threads the simulated hardware and
    driver state and records, in program order, the externally visible
    effects (register accesses, delays, cache flushes, log lines and the
    calls into the kernel). [u32] quantities are integers with the
    wrap-around written out. *)

From Stdlib Require Import ZArith List String Bool Lia.
Import ListNotations.
Local Open Scope string_scope.
Local Open Scope list_scope.
Local Open Scope Z_scope.

(** ** Machine integers *)

(** Truncation to a C [u32]. *)
Definition u32 (x : Z) : Z := x mod 2 ^ 32.

(** Truncation to a 64-bit pointer or [unsigned long]. *)
Definition u64 (x : Z) : Z := x mod 2 ^ 64.

(** [BIT(nr)] is [1UL << nr]. *)
Definition BIT (nr : Z) : Z := Z.shiftl 1 nr.

(** ** Register offsets and bit definitions *)

(* Register offset definitions for RPU. *)
Definition RPU_GLBL_CNTL_OFFSET : Z := 0x00000000.
Definition RPU_0_CFG_OFFSET : Z := 0x00000100.
Definition RPU_1_CFG_OFFSET : Z := 0x00000200.
(* Boot memory bit. high for OCM, low for TCM *)
Definition VINITHI_BIT : Z := BIT 2.
(* CPU halt bit, high: processor is running. low: processor is halt *)
Definition nCPUHALT_BIT : Z := BIT 0.
(* RPU mode, high: split mode. low: lock step mode *)
Definition SLSPLIT_BIT : Z := BIT 3.
(* Clamp mode. high: split mode. low: lock step mode *)
Definition SLCLAMP_BIT : Z := BIT 4.
(* TCM mode. high: combine RPU TCMs. low: split TCM for RPU1 and RPU0 *)
Definition TCM_COMB_BIT : Z := BIT 6.

(* Clock controller low power domain (CRL_APB) for RPU *)
Definition CPU_R5_CTRL_OFFSET : Z := 0x00000090.
Definition RST_LPD_TOP_OFFSET : Z := 0x0000023C.
Definition RPU0_RESET_BIT : Z := BIT 0.

(* IPI reg offsets *)
Definition TRIG_OFFSET : Z := 0x00000000.
Definition OBS_OFFSET : Z := 0x00000004.
Definition ISR_OFFSET : Z := 0x00000010.
Definition IMR_OFFSET : Z := 0x00000014.
Definition IER_OFFSET : Z := 0x00000018.
Definition IDR_OFFSET : Z := 0x0000001C.
Definition IPI_ALL_MASK : Z := 0x0F0F0301.

Definition MAX_INSTANCES : Z := 2.

Definition DEFAULT_FIRMWARE_NAME : string := "rproc-rpu-fw".

(** ** Enumerations *)

(* enumerations for RPU/IPI control methods *)
Inductive control_method := SMC | HVC | HW.

(* enumerations for R5 boot device *)
Inductive rpu_bootmem := TCM | OCM.

(* enumerations for R5 core configurations *)
Inductive rpu_core_conf := LOCK_STEP | SPLIT.

Definition control_method_val (m : control_method) : Z :=
  match m with SMC => 0 | HVC => 1 | HW => 2 end.

Definition rpu_bootmem_val (b : rpu_bootmem) : Z :=
  match b with TCM => 0 | OCM => 1 end.

Definition rpu_core_conf_val (c : rpu_core_conf) : Z :=
  match c with LOCK_STEP => 0 | SPLIT => 1 end.

(** ** The simulated hardware and driver state *)

(** The three memory-mapped windows of an instance: the fields
    [rpu_base], [crl_apb_base] and [ipi_base] of the instance state. Each
    is a separate device region; the backing store keeps one register file
    per window, addressed by byte offset. *)
Inductive window := rpu_base | crl_apb_base | ipi_base.

Definition window_eqb (a b : window) : bool :=
  match a, b with
  | rpu_base, rpu_base | crl_apb_base, crl_apb_base | ipi_base, ipi_base => true
  | _, _ => false
  end.

Definition regfile := window -> Z -> Z.

(** A platform device is identified by a handle. *)
Definition platform_device := Z.

(** The two work functions a deferred task can be bound to. *)
Inductive work_func := handle_event0 | handle_event1.

Record state := mkState {
  regs : regfile;
  (* the array remoteprocdev[MAX_INSTANCES] of platform devices *)
  remoteprocdev : list (option platform_device);
  (* the function bound to [local->workqueue] of each device *)
  workqueue : platform_device -> option work_func;
}.

Inductive loglevel := KERN_ERR | KERN_WARNING | KERN_INFO | KERN_DEBUG.

Inductive printk_arg :=
| PStr (s : string)
| PInt (z : Z).

(** Effects, in the order the program performs them. *)
Inductive event :=
| EvRead (w : window) (reg : Z) (val : Z)        (* readl *)
| EvWrite (w : window) (reg : Z) (val : Z)       (* writel *)
| EvUdelay (usecs : Z)                           (* udelay *)
| EvFlushCacheAll                                (* flush_cache_all *)
| EvInitWork (pdev : platform_device) (f : work_func)   (* INIT_WORK *)
| EvScheduleWork (pdev : platform_device)        (* schedule_work *)
| EvPublish (idx : Z) (pdev : platform_device)   (* remoteprocdev[idx] = pdev *)
| EvPrintk (lvl : loglevel) (fmt : string) (args : list printk_arg)
| EvDmaDeclare (start size : Z)                  (* dma_declare_coherent_memory *)
| EvDmaSetMask                                   (* dma_set_coherent_mask *)
| EvDmaRelease                                   (* dma_release_declared_memory *)
| EvIoremap (name : string)                      (* devm_ioremap_resource *)
| EvRequestIrq (irq : Z)                         (* devm_request_irq *)
| EvRprocAlloc (fw : string)                     (* rproc_alloc *)
| EvRprocAdd                                     (* rproc_add *)
| EvRprocPut.                                    (* rproc_put *)

(** ** The monad: state passing plus the effects emitted *)

Definition M (A : Type) : Type := state -> A * state * list event.

Definition ret {A} (a : A) : M A := fun s => (a, s, []).

Definition bind {A B} (m : M A) (k : A -> M B) : M B :=
  fun s =>
    let '(a, s1, t1) := m s in
    let '(b, s2, t2) := k a s1 in
    (b, s2, t1 ++ t2).

Declare Scope monad_scope.
Delimit Scope monad_scope with monad.
Notation "x <- c ;; k" := (bind c (fun x => k))
  (at level 61, c at next level, right associativity) : monad_scope.
Notation "c ;; k" := (bind c (fun _ => k))
  (at level 61, right associativity) : monad_scope.
Local Open Scope monad_scope.

(** Projections of one run. *)
Definition value {A} (m : M A) (s : state) : A := fst (fst (m s)).
Definition exec {A} (m : M A) (s : state) : state := snd (fst (m s)).
Definition emitted {A} (m : M A) (s : state) : list event := snd (m s).

Definition emit (e : event) : M unit := fun s => (tt, s, [e]).

(** ** Register access macros *)

(** What [readl] returns for a register of the backing store. *)
Definition rd (r : regfile) (w : window) (reg : Z) : Z := u32 (r w reg).

Definition wr (r : regfile) (w : window) (reg : Z) (val : Z) : regfile :=
  fun w' reg' => if window_eqb w w' && (reg =? reg') then u32 val else r w' reg'.

(* #define reg_read(base, reg): readl at base + reg *)
Definition reg_read (base : window) (reg : Z) : M Z :=
  fun s => let v := rd (regs s) base reg in (v, s, [EvRead base reg v]).

(* #define reg_write(base, reg, val): writel of val at base + reg *)
Definition reg_write (base : window) (reg : Z) (val : Z) : M unit :=
  fun s =>
    (tt,
     mkState (wr (regs s) base reg val) (remoteprocdev s) (workqueue s),
     [EvWrite base reg (u32 val)]).

(** ** Kernel services used by the lifecycle code *)

Definition udelay (usecs : Z) : M unit := emit (EvUdelay usecs).

Definition flush_cache_all : M unit := emit EvFlushCacheAll.

Definition pr_debug (fmt : string) (args : list printk_arg) : M unit :=
  emit (EvPrintk KERN_DEBUG fmt args).
Definition dev_dbg := pr_debug.

Definition pr_err (fmt : string) (args : list printk_arg) : M unit :=
  emit (EvPrintk KERN_ERR fmt args).
Definition dev_err := pr_err.

Definition dev_warn (fmt : string) (args : list printk_arg) : M unit :=
  emit (EvPrintk KERN_WARNING fmt args).

Definition dev_info (fmt : string) (args : list printk_arg) : M unit :=
  emit (EvPrintk KERN_INFO fmt args).

(* INIT_WORK(&local->workqueue, f) *)
Definition INIT_WORK (pdev : platform_device) (f : work_func) : M unit :=
  fun s =>
    (tt,
     mkState (regs s) (remoteprocdev s)
             (fun d => if d =? pdev then Some f else workqueue s d),
     [EvInitWork pdev f]).

Definition schedule_work (pdev : platform_device) : M unit :=
  emit (EvScheduleWork pdev).

(** Store into a C array. Inside the bounds the slot is replaced; a store
    outside the bounds is undefined in C, and this model leaves the array
    as it is there. The driver only stores at [rpu_id], which instance
    construction sets to 0 or 1. *)
Fixpoint array_store {A} (l : list A) (i : nat) (x : A) : list A :=
  match l, i with
  | [], _ => []
  | _ :: t, O => x :: t
  | h :: t, S j => h :: array_store t j x
  end.

(* remoteprocdev[idx] = pdev; *)
Definition publish (idx : Z) (pdev : platform_device) : M unit :=
  fun s =>
    (tt,
     mkState (regs s)
             (if (0 <=? idx) then array_store (remoteprocdev s) (Z.to_nat idx) (Some pdev)
              else remoteprocdev s)
             (workqueue s),
     [EvPublish idx pdev]).

(** ** Instance state and operation tables *)

(** A pointer to one of the three static [struct ipi_ops] tables. *)
Inductive ipi_ops_ptr := addr_ipi_hw_ops | addr_ipi_smc_ops | addr_ipi_hvc_ops.

(** A pointer to one of the three static [struct rpu_ops] tables. *)
Inductive rpu_ops_ptr := addr_rpu_hw_ops | addr_rpu_smc_ops | addr_rpu_hvc_ops.

(** [struct zynqmp_r5_rproc_pdata]. The work item lives in the driver
    state (see [workqueue]) and the three register windows are the
    register files of the backing store. *)
Record zynqmp_r5_rproc_pdata := mkPdata {
  rproc : Z;
  ipi_ops : ipi_ops_ptr;
  rpu_ops : rpu_ops_ptr;
  rpu_mode : rpu_core_conf;
  bootmem : rpu_bootmem;
  ipi_dest_mask : Z;
  rpu_id : Z;
  vring0 : Z;
}.

(** [struct ipi_ops]: IPI operation handlers. *)
Record struct_ipi_ops := mkIpiOps {
  clear : zynqmp_r5_rproc_pdata -> M unit;
  reset : zynqmp_r5_rproc_pdata -> M unit;
  set_mask : zynqmp_r5_rproc_pdata -> M unit;
  trigger : zynqmp_r5_rproc_pdata -> M unit;
}.

(** [struct rpu_ops]: RPU operation handlers. *)
Record struct_rpu_ops := mkRpuOps {
  bootdev : zynqmp_r5_rproc_pdata -> M unit;
  core_conf : zynqmp_r5_rproc_pdata -> M unit;
  halt : zynqmp_r5_rproc_pdata -> bool -> M unit;
  en_reset : zynqmp_r5_rproc_pdata -> bool -> M unit;
}.

(** ** Direct hardware RPU operations *)

Definition hw_r5_boot_dev (pdata : zynqmp_r5_rproc_pdata) : M unit :=
  let offset := RPU_1_CFG_OFFSET in
  pr_debug "%s: R5 ID: %d, boot_dev %d\n"
    [PStr "hw_r5_boot_dev"; PInt (rpu_id pdata); PInt (rpu_bootmem_val (bootmem pdata))] ;;
  let offset := if rpu_id pdata =? 0 then RPU_0_CFG_OFFSET else offset in
  tmp <- reg_read rpu_base offset ;;
  let tmp :=
    match bootmem pdata with
    | OCM => u32 (Z.lor tmp VINITHI_BIT)
    | _ => u32 (Z.land tmp (Z.lnot VINITHI_BIT))
    end in
  reg_write rpu_base offset tmp.

(** [RPU0_RESET_BIT << rpu_id] is a shift of an [unsigned long]; the result
    of the update is truncated to the [u32] variable [tmp]. *)
Definition hw_r5_reset (pdata : zynqmp_r5_rproc_pdata) (do_reset : bool) : M unit :=
  pr_debug "%s: R5 ID: %d, reset %d\n"
    [PStr "hw_r5_reset"; PInt (rpu_id pdata); PInt (Z.b2z do_reset)] ;;
  tmp <- reg_read crl_apb_base RST_LPD_TOP_OFFSET ;;
  let tmp :=
    if do_reset
    then u32 (Z.lor tmp (Z.shiftl RPU0_RESET_BIT (rpu_id pdata)))
    else u32 (Z.land tmp (Z.lnot (Z.shiftl RPU0_RESET_BIT (rpu_id pdata)))) in
  reg_write crl_apb_base RST_LPD_TOP_OFFSET tmp.

Definition hw_r5_halt (pdata : zynqmp_r5_rproc_pdata) (do_halt : bool) : M unit :=
  let offset := RPU_1_CFG_OFFSET in
  pr_debug "%s: R5 ID: %d, halt %d\n"
    [PStr "hw_r5_halt"; PInt (rpu_id pdata); PInt (Z.b2z do_halt)] ;;
  let offset := if rpu_id pdata =? 0 then RPU_0_CFG_OFFSET else offset in
  tmp <- reg_read rpu_base offset ;;
  let tmp :=
    if do_halt
    then u32 (Z.land tmp (Z.lnot nCPUHALT_BIT))
    else u32 (Z.lor tmp nCPUHALT_BIT) in
  reg_write rpu_base offset tmp.

Definition hw_r5_core_config (pdata : zynqmp_r5_rproc_pdata) : M unit :=
  pr_debug "%s: mode: %d\n"
    [PStr "hw_r5_core_config"; PInt (rpu_core_conf_val (rpu_mode pdata))] ;;
  tmp <- reg_read rpu_base 0 ;;
  let tmp :=
    match rpu_mode pdata with
    | SPLIT =>
        let tmp := u32 (Z.lor tmp SLSPLIT_BIT) in
        let tmp := u32 (Z.land tmp (Z.lnot TCM_COMB_BIT)) in
        u32 (Z.land tmp (Z.lnot SLCLAMP_BIT))
    | _ =>
        let tmp := u32 (Z.land tmp (Z.lnot SLSPLIT_BIT)) in
        let tmp := u32 (Z.lor tmp TCM_COMB_BIT) in
        u32 (Z.lor tmp SLCLAMP_BIT)
    end in
  reg_write rpu_base 0 tmp.

Definition rpu_hw_ops : struct_rpu_ops := {|
  bootdev := hw_r5_boot_dev;
  core_conf := hw_r5_core_config;
  halt := hw_r5_halt;
  en_reset := hw_r5_reset;
|}.

(** ** Secure-monitor-call RPU operations (placeholders) *)

Definition smc_r5_boot_dev (pdata : zynqmp_r5_rproc_pdata) : M unit :=
  pr_err "%s: atf smc to be implemented\n" [PStr "smc_r5_boot_dev"].

Definition smc_r5_reset (pdata : zynqmp_r5_rproc_pdata) (do_reset : bool) : M unit :=
  pr_err "%s: atf smc to be implemented\n" [PStr "smc_r5_reset"].

Definition smc_r5_halt (pdata : zynqmp_r5_rproc_pdata) (do_halt : bool) : M unit :=
  pr_err "%s: atf smc to be implemented\n" [PStr "smc_r5_halt"].

Definition smc_r5_core_config (pdata : zynqmp_r5_rproc_pdata) : M unit :=
  pr_err "%s: atf smc to be implemented\n" [PStr "smc_r5_core_config"].

Definition rpu_smc_ops : struct_rpu_ops := {|
  bootdev := smc_r5_boot_dev;
  core_conf := smc_r5_core_config;
  halt := smc_r5_halt;
  en_reset := smc_r5_reset;
|}.

(** ** Hypervisor-call RPU operations (placeholders) *)

Definition hvc_r5_boot_dev (pdata : zynqmp_r5_rproc_pdata) : M unit :=
  pr_err "%s: hypervisor hvc to be implemented\n" [PStr "hvc_r5_boot_dev"].

Definition hvc_r5_reset (pdata : zynqmp_r5_rproc_pdata) (do_reset : bool) : M unit :=
  pr_err "%s: hypervisor hvc to be implemented\n" [PStr "hvc_r5_reset"].

Definition hvc_r5_halt (pdata : zynqmp_r5_rproc_pdata) (do_halt : bool) : M unit :=
  pr_err "%s: hypervisor hvc to be implemented\n" [PStr "hvc_r5_halt"].

Definition hvc_r5_core_config (pdata : zynqmp_r5_rproc_pdata) : M unit :=
  pr_err "%s: hypervisor hvc to be implemented\n" [PStr "hvc_r5_core_config"].

Definition rpu_hvc_ops : struct_rpu_ops := {|
  bootdev := hvc_r5_boot_dev;
  core_conf := hvc_r5_core_config;
  halt := hvc_r5_halt;
  en_reset := hvc_r5_reset;
|}.

(** ** Direct hardware IPI operations *)

Definition hw_clear_ipi (pdata : zynqmp_r5_rproc_pdata) : M unit :=
  pr_debug "%s: irq issuer %08x clear IPI\n"
    [PStr "hw_clear_ipi"; PInt (ipi_dest_mask pdata)] ;;
  reg_write ipi_base ISR_OFFSET (ipi_dest_mask pdata).

Definition hw_ipi_reset (pdata : zynqmp_r5_rproc_pdata) : M unit :=
  reg_write ipi_base IDR_OFFSET IPI_ALL_MASK ;;
  reg_write ipi_base ISR_OFFSET IPI_ALL_MASK ;;
  (* add delay to allow ipi to be settle *)
  udelay 10 ;;
  pr_debug "IPI reset done\n" [].

Definition hw_set_ipi_mask (pdata : zynqmp_r5_rproc_pdata) : M unit :=
  pr_debug "%s: set IPI mask %08x\n"
    [PStr "hw_set_ipi_mask"; PInt (ipi_dest_mask pdata)] ;;
  reg_write ipi_base IER_OFFSET (ipi_dest_mask pdata).

Definition hw_trigger_ipi (pdata : zynqmp_r5_rproc_pdata) : M unit :=
  pr_debug "%s: dest %08x\n" [PStr "hw_trigger_ipi"; PInt (ipi_dest_mask pdata)] ;;
  reg_write ipi_base TRIG_OFFSET (ipi_dest_mask pdata).

Definition ipi_hw_ops : struct_ipi_ops := {|
  clear := hw_clear_ipi;
  reset := hw_ipi_reset;
  set_mask := hw_set_ipi_mask;
  trigger := hw_trigger_ipi;
|}.

(** ** Secure-monitor-call IPI operations (placeholders) *)

Definition smc_clear_ipi (pdata : zynqmp_r5_rproc_pdata) : M unit :=
  pr_err "%s: atf smc to be implemented\n" [PStr "smc_clear_ipi"].

Definition smc_ipi_reset (pdata : zynqmp_r5_rproc_pdata) : M unit :=
  pr_err "%s: atf smc to be implemented\n" [PStr "smc_ipi_reset"].

Definition smc_set_ipi_mask (pdata : zynqmp_r5_rproc_pdata) : M unit :=
  pr_err "%s: atf smc to be implemented\n" [PStr "smc_set_ipi_mask"].

Definition smc_trigger_ipi (pdata : zynqmp_r5_rproc_pdata) : M unit :=
  pr_err "%s: atf smc to be implemented\n" [PStr "smc_trigger_ipi"].

Definition ipi_smc_ops : struct_ipi_ops := {|
  clear := smc_clear_ipi;
  reset := smc_ipi_reset;
  set_mask := smc_set_ipi_mask;
  trigger := smc_trigger_ipi;
|}.

(** ** Hypervisor-call IPI operations (placeholders) *)

Definition hvc_clear_ipi (pdata : zynqmp_r5_rproc_pdata) : M unit :=
  pr_err "%s: hypervisor hvc to be implemented\n" [PStr "hvc_clear_ipi"].

Definition hvc_ipi_reset (pdata : zynqmp_r5_rproc_pdata) : M unit :=
  pr_err "%s: hypervisor hvc to be implemented\n" [PStr "hvc_ipi_reset"].

Definition hvc_set_ipi_mask (pdata : zynqmp_r5_rproc_pdata) : M unit :=
  pr_err "%s: hypervisor hvc to be implemented\n" [PStr "hvc_set_ipi_mask"].

Definition hvc_trigger_ipi (pdata : zynqmp_r5_rproc_pdata) : M unit :=
  pr_err "%s: hypervisor hvc to be implemented\n" [PStr "hvc_trigger_ipi"].

Definition ipi_hvc_ops : struct_ipi_ops := {|
  clear := hvc_clear_ipi;
  reset := hvc_ipi_reset;
  set_mask := hvc_set_ipi_mask;
  trigger := hvc_trigger_ipi;
|}.

(** ** Dereferencing the table pointers *)

Definition ipi_ops_at (p : ipi_ops_ptr) : struct_ipi_ops :=
  match p with
  | addr_ipi_hw_ops => ipi_hw_ops
  | addr_ipi_smc_ops => ipi_smc_ops
  | addr_ipi_hvc_ops => ipi_hvc_ops
  end.

Definition rpu_ops_at (p : rpu_ops_ptr) : struct_rpu_ops :=
  match p with
  | addr_rpu_hw_ops => rpu_hw_ops
  | addr_rpu_smc_ops => rpu_smc_ops
  | addr_rpu_hvc_ops => rpu_hvc_ops
  end.

(** ** Lifecycle *)

Definition ipi_init (pdata : zynqmp_r5_rproc_pdata) : M unit :=
  pr_debug "%s\n" [PStr "ipi_init"] ;;
  reset (ipi_ops_at (ipi_ops pdata)) pdata ;;
  set_mask (ipi_ops_at (ipi_ops pdata)) pdata.

Definition zynqmp_r5_rproc_start (pdev : platform_device)
    (local : zynqmp_r5_rproc_pdata) : M Z :=
  dev_dbg "%s\n" [PStr "zynqmp_r5_rproc_start"] ;;
  (* limit to two RPU support *)
  (if rpu_id local =? 0
   then INIT_WORK pdev handle_event0
   else INIT_WORK pdev handle_event1) ;;
  flush_cache_all ;;
  publish (rpu_id local) pdev ;;
  (* Set up R5 *)
  core_conf (rpu_ops_at (rpu_ops local)) local ;;
  en_reset (rpu_ops_at (rpu_ops local)) local true ;;
  halt (rpu_ops_at (rpu_ops local)) local true ;;
  bootdev (rpu_ops_at (rpu_ops local)) local ;;
  (* Add delay before release from halt and reset *)
  udelay 500 ;;
  en_reset (rpu_ops_at (rpu_ops local)) local false ;;
  halt (rpu_ops_at (rpu_ops local)) local false ;;
  ipi_init local ;;
  ret 0.

(* kick a firmware *)
Definition zynqmp_r5_rproc_kick (pdev : platform_device)
    (local : zynqmp_r5_rproc_pdata) (vqid : Z) : M unit :=
  dev_dbg "KICK Firmware to start send messages vqid %d\n" [PInt vqid] ;;
  trigger (ipi_ops_at (ipi_ops local)) local.

(* power off the remote processor *)
Definition zynqmp_r5_rproc_stop (pdev : platform_device)
    (local : zynqmp_r5_rproc_pdata) : M Z :=
  dev_dbg "%s\n" [PStr "zynqmp_r5_rproc_stop"] ;;
  en_reset (rpu_ops_at (rpu_ops local)) local true ;;
  halt (rpu_ops_at (rpu_ops local)) local true ;;
  reset (ipi_ops_at (ipi_ops local)) local ;;
  ret 0.

(* the handler's result is always IRQ_HANDLED *)
Definition r5_remoteproc_interrupt (irq : Z) (pdev : platform_device)
    (local : zynqmp_r5_rproc_pdata) : M unit :=
  dev_dbg "KICK Linux because of pending message(irq%d)\n" [PInt irq] ;;
  schedule_work pdev ;;
  clear (ipi_ops_at (ipi_ops local)) local ;;
  dev_dbg "KICK Linux handled\n" [].

(** ** What the driver takes from kernel headers outside this file *)

(** Constants and macros the driver uses but does not define: errno
    values, the DMA flags, and the linear physical-to-virtual map. *)
Record kernel_headers := mkKernel {
  ENOMEM : Z;
  ENXIO : Z;
  ENODEV : Z;
  DMA_MEMORY_IO : Z;
  DMA_MEMORY_EXCLUSIVE : Z;
  phys_to_virt : Z -> Z;
}.

(** [struct rproc_vring], the fields the driver reads: the kernel virtual
    address of the vring and its DMA (physical) address. *)
Module rproc_vring.
Record t := mk {
  va : Z;
  dma : Z;
}.
End rproc_vring.

(** [struct resource]. *)
Record resource := mkResource {
  res_start : Z;
  res_end : Z;
}.

Definition resource_size (res : resource) : Z := res_end res - res_start res + 1.

(** Result of [devm_ioremap_resource]: a mapped window, or [ERR_PTR(err)]. *)
Inductive ioremap_result :=
| IoMapped
| IoErr (err : Z).

(** The platform a device is probed on: what each kernel service called by
    [probe] answers for this device. *)
Record platform := mkPlatform {
  devm_kzalloc_ok : bool;
  platform_get_resource_byname : string -> option resource;
  dma_declare_coherent_memory : Z;          (* the flags it returns *)
  dma_set_coherent_mask : Z;
  of_get_property : string -> option string;
  devm_ioremap_resource : string -> ioremap_result;
  platform_get_irq : Z;                     (* an int: irq number or -errno *)
  devm_request_irq : Z -> Z;                (* by irq number *)
  of_property_read_u32 : string -> option Z; (* None: a negative return *)
  firmware : option string;                 (* the module parameter *)
  rproc_alloc : option Z;                   (* None: NULL *)
  rproc_add : Z;
}.

Section Kernel.

Variable K : kernel_headers.

(** ** Address translation *)

(** [rvring] is [vq->priv]. Pointer arithmetic is on 64-bit addresses. *)
Definition zynqmp_r5_kva_to_guest_addr_kva (va : Z) (rvring : rproc_vring.t) : Z :=
  (*
   * Remoteproc uses dma_alloc_coherent to set up the address of vring.
   * It assumes the remote has the same memory address mapping for
   * vring.
   *)
  u64 (phys_to_virt K (rproc_vring.dma rvring) + (va - rproc_vring.va rvring)).

(** ** Instance construction *)

(** The value [probe] returns, and the instance it leaves registered with
    the remoteproc framework: [None] on every path that does not reach
    [rproc_add] successfully. *)
Definition probe_result : Type := Z * option zynqmp_r5_rproc_pdata.

(* err_exit: return 0; *)
Definition err_exit : M probe_result := ret (0, None).

(* dma_mask_fault: dma_release_declared_memory(&pdev->dev); falls into err_exit *)
Definition dma_mask_fault : M probe_result :=
  emit EvDmaRelease ;;
  err_exit.

(* rproc_fault: rproc_put(local->rproc); falls into dma_mask_fault *)
Definition rproc_fault : M probe_result :=
  emit EvRprocPut ;;
  dma_mask_fault.

Definition zynqmp_r5_remoteproc_probe (P : platform) (pdev : platform_device)
    : M probe_result :=
  if negb (devm_kzalloc_ok P) then ret (- ENOMEM K, None) else
  (* Declare vring for firmware *)
  match platform_get_resource_byname P "vring0" with
  | None =>
      dev_err "invalid address for vring0\n" [] ;;
      ret (- ENXIO K, None)
  | Some res =>
  emit (EvDmaDeclare (res_start res) (resource_size res)) ;;
  let r := dma_declare_coherent_memory P in
  if Z.land r (DMA_MEMORY_IO K) =? 0 then
    dev_err "dma_declare_coherent_memory failed %x - %x\n"
      [PInt (u32 (res_start res)); PInt (u32 (res_end res))] ;;
    (* ret = -ENOMEM; *)
    err_exit
  else
  (* FIXME: it may need to extend to 64/48 bit *)
  emit EvDmaSetMask ;;
  let r := dma_set_coherent_mask P in
  if negb (r =? 0) then
    dev_err "dma_set_coherent_mask: %d\n" [PInt r] ;;
    dma_mask_fault
  else
  let prop := of_get_property P "core_conf" in
  match prop with
  | None => dev_warn "default core_conf used: lock-step\n" []
  | Some _ => ret tt
  end ;;
  let prop := match prop with None => "lock-step" | Some p => p end in
  dev_info "RPU core_conf: %s\n" [PStr prop] ;;
  match (if (prop =? "split0")%string then Some (SPLIT, 0)
         else if (prop =? "split1")%string then Some (SPLIT, 1)
         else if (prop =? "lock-step")%string then Some (LOCK_STEP, 0)
         else None) with
  | None =>
      dev_err "Invalid core_conf mode provided - %s , %d\n"
        [PStr prop; PInt (rpu_core_conf_val LOCK_STEP)] ;;
      dma_mask_fault
  | Some (l_rpu_mode, l_rpu_id) =>
  let prop := of_get_property P "method" in
  match prop with
  | None => dev_warn "default method used: smc\n" []
  | Some _ => ret tt
  end ;;
  let prop := match prop with None => "smc" | Some p => p end in
  dev_info "IPI/RPU control method: %s\n" [PStr prop] ;;
  match (if (prop =? "direct")%string then Some (HW, addr_ipi_hw_ops, addr_rpu_hw_ops)
         else if (prop =? "hvc")%string then Some (HVC, addr_ipi_hvc_ops, addr_rpu_hvc_ops)
         else if (prop =? "smc")%string then Some (SMC, addr_ipi_smc_ops, addr_rpu_smc_ops)
         else None) with
  | None =>
      dev_err "Invalid method provided - %s\n" [PStr prop] ;;
      dma_mask_fault
  | Some (method, l_ipi_ops, l_rpu_ops) =>
  (* Handle direct hardware access *)
  let map_windows (k : M probe_result) : M probe_result :=
    match method with
    | HW =>
        emit (EvIoremap "rpu_base") ;;
        match devm_ioremap_resource P "rpu_base" with
        | IoErr _ => dev_err "Unable to map RPU I/O memory\n" [] ;; dma_mask_fault
        | IoMapped =>
        emit (EvIoremap "apb_base") ;;
        match devm_ioremap_resource P "apb_base" with
        | IoErr _ => dev_err "Unable to map CRL_APB I/O memory\n" [] ;; dma_mask_fault
        | IoMapped =>
        emit (EvIoremap "ipi") ;;
        match devm_ioremap_resource P "ipi" with
        | IoErr _ =>
            pr_err "%s: Unable to map IPI\n" [PStr "zynqmp_r5_remoteproc_probe"] ;;
            dma_mask_fault
        | IoMapped => k
        end end end
    | _ => k
    end in
  map_windows (
  let prop := of_get_property P "bootmem" in
  match prop with
  | None => dev_warn "default bootmem property used: tcm\n" []
  | Some _ => ret tt
  end ;;
  let prop := match prop with None => "tcm" | Some p => p end in
  dev_info "RPU bootmem: %s\n" [PStr prop] ;;
  match (if (prop =? "tcm")%string then Some TCM
         else if (prop =? "ocm")%string then Some OCM
         else None) with
  | None =>
      dev_err "Invalid R5 bootmem property - %s\n" [PStr prop] ;;
      dma_mask_fault
  | Some l_bootmem =>
  (* IPI IRQ: the int result is stored into the u32 field vring0 *)
  let l_vring0 := u32 (platform_get_irq P) in
  if l_vring0 <? 0 then
    (* ret = local->vring0; *)
    dev_err "unable to find IPI IRQ\n" [] ;;
    dma_mask_fault
  else
  emit (EvRequestIrq l_vring0) ;;
  let r := devm_request_irq P l_vring0 in
  if negb (r =? 0) then
    dev_err "IRQ %d already allocated\n" [PInt l_vring0] ;;
    dma_mask_fault
  else
  dev_dbg "vring0 irq: %d\n" [PInt l_vring0] ;;
  let rd_mask := of_property_read_u32 P "ipi_dest_mask" in
  match rd_mask with
  | None => dev_warn "default ipi_dest_mask used: 0x100\n" []
  | Some _ => ret tt
  end ;;
  let l_ipi_dest_mask := match rd_mask with None => 0x100 | Some v => u32 v end in
  dev_info "ipi_dest_mask: 0x%x\n" [PInt l_ipi_dest_mask] ;;
  (* Module param firmware first *)
  let prop := of_get_property P "firmware" in
  let prop :=
    match firmware P with
    | Some f => Some f
    | None => match prop with None => Some DEFAULT_FIRMWARE_NAME | Some p => Some p end
    end in
  match prop with
  | Some fw =>
      dev_dbg "Using firmware: %s\n" [PStr fw] ;;
      emit (EvRprocAlloc fw) ;;
      match rproc_alloc P with
      | None =>
          dev_err "rproc allocation failed\n" [] ;;
          rproc_fault
      | Some l_rproc =>
          emit EvRprocAdd ;;
          let r := rproc_add P in
          if negb (r =? 0) then
            dev_err "rproc registration failed\n" [] ;;
            rproc_fault
          else
            ret (r, Some (mkPdata l_rproc l_ipi_ops l_rpu_ops l_rpu_mode l_bootmem
                                  l_ipi_dest_mask l_rpu_id l_vring0))
      end
  | None =>
      ret (- ENODEV K, None)
  end
  end)
  end end end.

End Kernel.

(** ** Vocabulary for the properties *)

(** The per-core configuration block the driver selects for a core id. *)
Definition cfg_offset (id : Z) : Z :=
  if id =? 0 then RPU_0_CFG_OFFSET else RPU_1_CFG_OFFSET.

(** The work function [start] binds for a core id. *)
Definition work_func_for (id : Z) : work_func :=
  if id =? 0 then handle_event0 else handle_event1.

Definition is_ocm (b : rpu_bootmem) : bool :=
  match b with OCM => true | TCM => false end.

Definition is_split (c : rpu_core_conf) : bool :=
  match c with SPLIT => true | LOCK_STEP => false end.

(** Reset asserted: the core's bit of the LPD reset register is set. *)
Definition in_reset (pd : zynqmp_r5_rproc_pdata) (r : regfile) : bool :=
  Z.testbit (rd r crl_apb_base RST_LPD_TOP_OFFSET) (rpu_id pd).

(** Halted: [nCPUHALT] of the core's configuration register is low. *)
Definition halted (pd : zynqmp_r5_rproc_pdata) (r : regfile) : bool :=
  negb (Z.testbit (rd r rpu_base (cfg_offset (rpu_id pd))) 0).

(** The two durable states of the lifecycle. *)
Definition stopped (pd : zynqmp_r5_rproc_pdata) (r : regfile) : bool :=
  in_reset pd r && halted pd r.

Definition running (pd : zynqmp_r5_rproc_pdata) (r : regfile) : bool :=
  negb (in_reset pd r) && negb (halted pd r).

(** An instance is bound to a control method when both of its table
    pointers are the ones [probe] installs for that method. *)
Definition bound_to (m : control_method) (pd : zynqmp_r5_rproc_pdata) : Prop :=
  match m with
  | HW => ipi_ops pd = addr_ipi_hw_ops /\ rpu_ops pd = addr_rpu_hw_ops
  | HVC => ipi_ops pd = addr_ipi_hvc_ops /\ rpu_ops pd = addr_rpu_hvc_ops
  | SMC => ipi_ops pd = addr_ipi_smc_ops /\ rpu_ops pd = addr_rpu_smc_ops
  end.

(** The eight backend operations of an instance, as dispatched through its
    tables; [b] is the argument of [halt] and [en_reset]. *)
Definition backend_ops (pd : zynqmp_r5_rproc_pdata) (b : bool) : list (M unit) :=
  [ core_conf (rpu_ops_at (rpu_ops pd)) pd;
    bootdev (rpu_ops_at (rpu_ops pd)) pd;
    halt (rpu_ops_at (rpu_ops pd)) pd b;
    en_reset (rpu_ops_at (rpu_ops pd)) pd b;
    clear (ipi_ops_at (ipi_ops pd)) pd;
    reset (ipi_ops_at (ipi_ops pd)) pd;
    set_mask (ipi_ops_at (ipi_ops pd)) pd;
    trigger (ipi_ops_at (ipi_ops pd)) pd ].

(** Modelled from the spec: the inverse of the address translation, which
    the driver does not contain. It undoes the translation of a queue:
    the offset of the guest address from the translated physical base,
    added to the queue's host virtual base. *)
Definition guest_addr_kva_to_kva (K : kernel_headers) (ga : Z)
    (rvring : rproc_vring.t) : Z :=
  u64 (rproc_vring.va rvring + (ga - phys_to_virt K (rproc_vring.dma rvring))).

(** The strings [probe] recognizes for each enumeration property; an
    absent property takes its default and is recognized. *)
Definition core_conf_known (P : platform) : bool :=
  match of_get_property P "core_conf" with
  | None => true
  | Some p => ((p =? "split0") || (p =? "split1") || (p =? "lock-step"))%string
  end.

Definition method_known (P : platform) : bool :=
  match of_get_property P "method" with
  | None => true
  | Some p => ((p =? "direct") || (p =? "hvc") || (p =? "smc"))%string
  end.

Definition bootmem_known (P : platform) : bool :=
  match of_get_property P "bootmem" with
  | None => true
  | Some p => ((p =? "tcm") || (p =? "ocm"))%string
  end.

(** The bit [n0] of register [reg0] of window [w0], with the value an
    operation gives it. *)
Definition at_bit (w0 : window) (reg0 n0 : Z) (v : bool)
    : window -> Z -> Z -> option bool :=
  fun w reg n =>
    if window_eqb w0 w && (reg0 =? reg) && (n0 =? n) then Some v else None.

(** [changes_only m s bits]: running [m] on [s] gives the bits selected by
    [bits] the values it names and leaves every other bit of every
    register, the registry and the work bindings as they were. *)
Definition changes_only (m : M unit) (s : state)
    (bits : window -> Z -> Z -> option bool) : Prop :=
  remoteprocdev (exec m s) = remoteprocdev s /\
  workqueue (exec m s) = workqueue s /\
  forall w reg n,
    Z.testbit (rd (regs (exec m s)) w reg) n =
    match bits w reg n with
    | Some v => v
    | None => Z.testbit (rd (regs s) w reg) n
    end.

(** [yields m Q]: on every state, [m] returns a value satisfying [Q] and
    leaves the state (registers, registry, work bindings) untouched. *)
Definition yields {A} (m : M A) (Q : A -> Prop) : Prop :=
  forall s, Q (value m s) /\ exec m s = s.

(** [silent_on e m]: no run of [m] performs the effect [e]. *)
Definition silent_on {A} (e : event) (m : M A) : Prop :=
  forall s, ~ In e (emitted m s).

(** What [probe] guarantees about its result on a platform where the
    instance memory and the vring0 resource are available. *)
Definition probe_post (P : platform) (r : Z * option zynqmp_r5_rproc_pdata) : Prop :=
  fst r = 0 /\
  match snd r with
  | None => True
  | Some pd =>
      core_conf_known P && method_known P && bootmem_known P = true /\
      0 <= rpu_id pd < MAX_INSTANCES /\
      vring0 pd = u32 (platform_get_irq P) /\
      devm_request_irq P (vring0 pd) = 0 /\
      0 <= ipi_dest_mask pd < 2 ^ 32 /\
      exists m, bound_to m pd
  end.

(** ** Sample inputs *)

(** Linux values of the header constants, with a linear map at the arm64
    39-bit page offset. *)
Definition kernel_arm64 : kernel_headers := {|
  ENOMEM := 12;
  ENXIO := 6;
  ENODEV := 19;
  DMA_MEMORY_IO := 0x02;
  DMA_MEMORY_EXCLUSIVE := 0x08;
  phys_to_virt := fun x => u64 (x + 0xffffffc000000000);
|}.

(** Lock-step, boot from TCM, direct hardware access, default mask. *)
Definition sample_pdata : zynqmp_r5_rproc_pdata := {|
  rproc := 1;
  ipi_ops := addr_ipi_hw_ops;
  rpu_ops := addr_rpu_hw_ops;
  rpu_mode := LOCK_STEP;
  bootmem := TCM;
  ipi_dest_mask := 0x100;
  rpu_id := 0;
  vring0 := 79;
|}.

(** As [sample_pdata], booting from OCM. *)
Definition sample_pdata_ocm : zynqmp_r5_rproc_pdata := {|
  rproc := 1;
  ipi_ops := addr_ipi_hw_ops;
  rpu_ops := addr_rpu_hw_ops;
  rpu_mode := LOCK_STEP;
  bootmem := OCM;
  ipi_dest_mask := 0x100;
  rpu_id := 0;
  vring0 := 79;
|}.

(** Split mode, second core, boot from OCM, secure monitor calls. *)
Definition sample_pdata_smc : zynqmp_r5_rproc_pdata := {|
  rproc := 2;
  ipi_ops := addr_ipi_smc_ops;
  rpu_ops := addr_rpu_smc_ops;
  rpu_mode := SPLIT;
  bootmem := OCM;
  ipi_dest_mask := 0x100;
  rpu_id := 1;
  vring0 := 80;
|}.

(** A backing store in which core 0 is in reset and halted, everything
    else zero; an empty registry. *)
Definition sample_state : state := {|
  regs := fun w reg =>
    match w with
    | crl_apb_base => if reg =? RST_LPD_TOP_OFFSET then 1 else 0
    | _ => 0
    end;
  remoteprocdev := [None; None];
  workqueue := fun _ => None;
|}.

Definition sample_rvring : rproc_vring.t := {|
  rproc_vring.va := 0xffffff8008000000;
  rproc_vring.dma := 0x3ed00000;
|}.

(** A device tree node with the given enumeration strings. *)
Definition sample_node (core_conf method bootmem : string) (name : string)
    : option string :=
  if (name =? "core_conf")%string then Some core_conf
  else if (name =? "method")%string then Some method
  else if (name =? "bootmem")%string then Some bootmem
  else None.

(** A platform on which every kernel service succeeds, with interrupt
    numbers below 1024 ([devm_request_irq] answers -EINVAL for any other);
    the enumeration strings and the answer of [platform_get_irq] are left
    open. *)
Definition sample_platform (core_conf method bootmem : string) (irq : Z)
    : platform := {|
  devm_kzalloc_ok := true;
  platform_get_resource_byname := fun _ => Some (mkResource 0x3ed00000 0x3ed03fff);
  dma_declare_coherent_memory := 0x02;
  dma_set_coherent_mask := 0;
  of_get_property := sample_node core_conf method bootmem;
  devm_ioremap_resource := fun _ => IoMapped;
  platform_get_irq := irq;
  devm_request_irq := fun irq => if irq <? 1024 then 0 else -22;
  of_property_read_u32 := fun _ => None;
  firmware := None;
  rproc_alloc := Some 1;
  rproc_add := 0;
|}.

(** ** The deferred task *)

Section Deferred.

(** [IRQ_NONE] comes from the interrupt headers; [rproc_vq_interrupt] is
    the remoteproc framework's routine (an rproc handle and a queue index
    in, an [irqreturn_t] out), an arbitrary computation on the state;
    [platform_get_drvdata] gives the instance attached to a device, if
    any. *)
Variable IRQ_NONE : Z.
Variable rproc_vq_interrupt : Z -> Z -> M Z.
Variable platform_get_drvdata : platform_device -> option zynqmp_r5_rproc_pdata.

(* the device handed to dev_dbg, [remoteprocdev[local->rpu_id]], is not
   part of the log effect, as for every other log line *)
Definition handle_event (local : zynqmp_r5_rproc_pdata) : M unit :=
  flush_cache_all ;;
  r <- rproc_vq_interrupt (rproc local) 0 ;;
  if r =? IRQ_NONE
  then dev_dbg "no message found in vqid 0\n" []
  else ret tt.

(** [platform_get_drvdata(remoteprocdev[idx])] followed by the event
    handling. The result is [None] when the slot holds no device or the
    device has no instance attached: the C code dereferences a null pointer
    there. *)
Definition handle_event_of_slot (idx : nat) : M (option unit) :=
  fun s =>
    match nth_error (remoteprocdev s) idx with
    | Some (Some pdev) =>
        match platform_get_drvdata pdev with
        | Some local => (x <- handle_event local ;; ret (Some x)) s
        | None => (None, s, [])
        end
    | _ => (None, s, [])
    end.

(** The bodies of the two work functions [handle_event0] and
    [handle_event1]. *)
Definition handle_event0_body : M (option unit) := handle_event_of_slot 0.

Definition handle_event1_body : M (option unit) := handle_event_of_slot 1.

(** Running a work item: the body of the function it is bound to. *)
Definition run_work (f : work_func) : M (option unit) :=
  match f with
  | handle_event0 => handle_event0_body
  | handle_event1 => handle_event1_body
  end.

End Deferred.

(** ** More vocabulary *)

(** Two register files that [readl] cannot tell apart. *)
Definition same_registers (r1 r2 : regfile) : Prop :=
  forall w reg, rd r1 w reg = rd r2 w reg.

(** [emits_only ok m]: every effect of every run of [m] satisfies [ok]. *)
Definition emits_only {A} (ok : event -> bool) (m : M A) : Prop :=
  forall s, forallb ok (emitted m s) = true.

(** [built_only_with ok m]: a run of [m] that constructs an instance has
    performed only effects satisfying [ok]. *)
Definition built_only_with (ok : event -> bool) (m : M (Z * option zynqmp_r5_rproc_pdata))
    : Prop :=
  forall s, snd (value m s) <> None -> forallb ok (emitted m s) = true.

(** [fails_with_last e m]: a run of [m] that constructs no instance has [e]
    as its last effect. *)
Definition fails_with_last (e : event) (m : M (Z * option zynqmp_r5_rproc_pdata))
    : Prop :=
  forall s, snd (value m s) = None -> exists t, emitted m s = t ++ [e].

Definition is_reg_access (e : event) : bool :=
  match e with
  | EvRead _ _ _ | EvWrite _ _ _ => true
  | _ => false
  end.

Definition is_ioremap (e : event) : bool :=
  match e with EvIoremap _ => true | _ => false end.

Definition is_dma_release (e : event) : bool :=
  match e with EvDmaRelease => true | _ => false end.


Definition is_printk (e : event) : bool :=
  match e with EvPrintk _ _ _ => true | _ => false end.

(** The effects of a run with the log lines left out. *)
Definition actions (t : list event) : list event :=
  filter (fun e => negb (is_printk e)) t.

Definition is_rproc_put (e : event) : bool :=
  match e with EvRprocPut => true | _ => false end.

(** A string property of the device tree node, or its default. *)
Definition property_or (P : platform) (name default : string) : string :=
  match of_get_property P name with
  | Some p => p
  | None => default
  end.

(** The device tree asks for direct hardware access. *)
Definition method_is_direct (P : platform) : bool :=
  match of_get_property P "method" with
  | Some p => (p =? "direct")%string
  | None => false
  end.

Definition ioremap_ok (r : ioremap_result) : bool :=
  match r with IoMapped => true | IoErr _ => false end.

Definition is_built (r : Z * option zynqmp_r5_rproc_pdata) : bool :=
  match snd r with Some _ => true | None => false end.

(** The conditions under which [probe] constructs an instance, in the
    order it checks them. *)
Definition probe_ok (K : kernel_headers) (P : platform) : bool :=
  devm_kzalloc_ok P
  && match platform_get_resource_byname P "vring0" with
     | Some _ => true
     | None => false
     end
  && negb (Z.land (dma_declare_coherent_memory P) (DMA_MEMORY_IO K) =? 0)
  && (dma_set_coherent_mask P =? 0)
  && core_conf_known P
  && method_known P
  && (if method_is_direct P
      then ioremap_ok (devm_ioremap_resource P "rpu_base")
           && ioremap_ok (devm_ioremap_resource P "apb_base")
           && ioremap_ok (devm_ioremap_resource P "ipi")
      else true)
  && bootmem_known P
  && (devm_request_irq P (u32 (platform_get_irq P)) =? 0)
  && match rproc_alloc P with Some _ => true | None => false end
  && (rproc_add P =? 0).

(** The firmware name [probe] settles on: the module parameter, else the
    device tree property, else the default. *)
Definition firmware_name (P : platform) : string :=
  match firmware P with
  | Some f => f
  | None =>
      match of_get_property P "firmware" with
      | Some p => p
      | None => DEFAULT_FIRMWARE_NAME
      end
  end.

(** Sample collaborators of the deferred task: a queue routine that
    reports no pending message, and a single device 7 carrying the sample
    instance. *)
Definition sample_vq_interrupt (rproc vqid : Z) : M Z := ret 0.

Definition sample_drvdata (pdev : platform_device) : option zynqmp_r5_rproc_pdata :=
  if pdev =? 7 then Some sample_pdata else None.

(** * Properties *)

(** ** Running a sequence *)

Lemma bind_run {A B} (m : M A) (k : A -> M B) (s : state) :
  bind m k s =
  (value (k (value m s)) (exec m s),
   exec (k (value m s)) (exec m s),
   emitted m s ++ emitted (k (value m s)) (exec m s)).
Proof.
  unfold bind, value, exec, emitted.
  destruct (m s) as [[a s1] t1]; cbn [fst snd].
  destruct (k a s1) as [[b s2] t2]; reflexivity.
Qed.

Lemma value_bind {A B} (m : M A) (k : A -> M B) s :
  value (bind m k) s = value (k (value m s)) (exec m s).
Proof. unfold value at 1; rewrite bind_run; reflexivity. Qed.

Lemma exec_bind {A B} (m : M A) (k : A -> M B) s :
  exec (bind m k) s = exec (k (value m s)) (exec m s).
Proof. unfold exec at 1; rewrite bind_run; reflexivity. Qed.

Lemma emitted_bind {A B} (m : M A) (k : A -> M B) s :
  emitted (bind m k) s = emitted m s ++ emitted (k (value m s)) (exec m s).
Proof. unfold emitted at 1; rewrite bind_run; reflexivity. Qed.

(** ** Bits of 32-bit values *)

Lemma u32_range x : 0 <= u32 x < 2 ^ 32.
Proof. unfold u32; apply Z.mod_pos_bound; lia. Qed.

Lemma u32_idem x : u32 (u32 x) = u32 x.
Proof. unfold u32; apply Z.mod_mod; lia. Qed.

Lemma testbit_u32 x n : Z.testbit (u32 x) n = (n <? 32) && Z.testbit x n.
Proof. unfold u32; apply Z.testbit_mod_pow2; lia. Qed.

Lemma testbit_BIT k n : 0 <= k -> Z.testbit (BIT k) n = (k =? n).
Proof. intros Hk; unfold BIT; rewrite Z.shiftl_1_l; apply Z.pow2_bits_eqb, Hk. Qed.

Lemma window_eqb_eq a b : window_eqb a b = true <-> a = b.
Proof. destruct a, b; cbn; split; congruence. Qed.

Lemma rd_wr r w reg v w' reg' :
  rd (wr r w reg v) w' reg' =
  if window_eqb w w' && (reg =? reg') then u32 v else rd r w' reg'.
Proof.
  unfold rd, wr.
  destruct (window_eqb w w' && (reg =? reg')); [apply u32_idem | reflexivity].
Qed.

(** Setting and clearing one bit of a register value, as the driver's
    read-modify-write sequences do. *)
Lemma testbit_set_bit tmp k n :
  0 <= k < 32 ->
  Z.testbit (u32 (Z.lor (u32 tmp) (BIT k))) n =
  if n =? k then true else Z.testbit (u32 tmp) n.
Proof.
  intros Hk.
  destruct (Z.ltb_spec n 0) as [Hn | Hn].
  - rewrite !(Z.testbit_neg_r _ n) by assumption.
    destruct (Z.eqb_spec n k); [lia | reflexivity].
  - rewrite testbit_u32, Z.lor_spec, testbit_BIT by lia.
    rewrite (Z.eqb_sym k n).
    destruct (Z.eqb_spec n k) as [-> | Hne].
    + rewrite orb_true_r, andb_true_r. apply Z.ltb_lt; lia.
    + rewrite orb_false_r, testbit_u32.
      destruct (n <? 32); reflexivity.
Qed.

Lemma testbit_clear_bit tmp k n :
  0 <= k ->
  Z.testbit (u32 (Z.land (u32 tmp) (Z.lnot (BIT k)))) n =
  if n =? k then false else Z.testbit (u32 tmp) n.
Proof.
  intros Hk.
  destruct (Z.ltb_spec n 0) as [Hn | Hn].
  - rewrite !(Z.testbit_neg_r _ n) by assumption.
    destruct (n =? k); reflexivity.
  - rewrite testbit_u32, Z.land_spec, Z.lnot_spec, testbit_BIT by lia.
    rewrite (Z.eqb_sym k n).
    destruct (Z.eqb_spec n k) as [-> | Hne]; cbn [negb].
    + rewrite andb_false_r, andb_false_r; reflexivity.
    + rewrite andb_true_r, testbit_u32.
      destruct (n <? 32); reflexivity.
Qed.

(** ** The direct read-modify-write operations, run on a state *)

Lemma hw_r5_core_config_run pd s :
  hw_r5_core_config pd s =
  (tt,
   mkState
     (wr (regs s) rpu_base 0
        (if is_split (rpu_mode pd)
         then u32 (Z.land (u32 (Z.land (u32 (Z.lor (rd (regs s) rpu_base 0) SLSPLIT_BIT))
                                       (Z.lnot TCM_COMB_BIT)))
                          (Z.lnot SLCLAMP_BIT))
         else u32 (Z.lor (u32 (Z.lor (u32 (Z.land (rd (regs s) rpu_base 0)
                                                  (Z.lnot SLSPLIT_BIT)))
                                     TCM_COMB_BIT))
                         SLCLAMP_BIT)))
     (remoteprocdev s) (workqueue s),
   [EvPrintk KERN_DEBUG "%s: mode: %d\n"
      [PStr "hw_r5_core_config"; PInt (rpu_core_conf_val (rpu_mode pd))];
    EvRead rpu_base 0 (rd (regs s) rpu_base 0);
    EvWrite rpu_base 0
      (u32 (if is_split (rpu_mode pd)
            then u32 (Z.land (u32 (Z.land (u32 (Z.lor (rd (regs s) rpu_base 0) SLSPLIT_BIT))
                                          (Z.lnot TCM_COMB_BIT)))
                             (Z.lnot SLCLAMP_BIT))
            else u32 (Z.lor (u32 (Z.lor (u32 (Z.land (rd (regs s) rpu_base 0)
                                                     (Z.lnot SLSPLIT_BIT)))
                                        TCM_COMB_BIT))
                            SLCLAMP_BIT)))]).
Proof. destruct pd as [? ? ? [|] ? ? ? ?]; reflexivity. Qed.

Lemma hw_r5_boot_dev_run pd s :
  hw_r5_boot_dev pd s =
  (tt,
   mkState
     (wr (regs s) rpu_base (cfg_offset (rpu_id pd))
        (if is_ocm (bootmem pd)
         then u32 (Z.lor (rd (regs s) rpu_base (cfg_offset (rpu_id pd))) VINITHI_BIT)
         else u32 (Z.land (rd (regs s) rpu_base (cfg_offset (rpu_id pd)))
                          (Z.lnot VINITHI_BIT))))
     (remoteprocdev s) (workqueue s),
   [EvPrintk KERN_DEBUG "%s: R5 ID: %d, boot_dev %d\n"
      [PStr "hw_r5_boot_dev"; PInt (rpu_id pd); PInt (rpu_bootmem_val (bootmem pd))];
    EvRead rpu_base (cfg_offset (rpu_id pd))
      (rd (regs s) rpu_base (cfg_offset (rpu_id pd)));
    EvWrite rpu_base (cfg_offset (rpu_id pd))
      (u32 (if is_ocm (bootmem pd)
            then u32 (Z.lor (rd (regs s) rpu_base (cfg_offset (rpu_id pd))) VINITHI_BIT)
            else u32 (Z.land (rd (regs s) rpu_base (cfg_offset (rpu_id pd)))
                             (Z.lnot VINITHI_BIT))))]).
Proof. destruct pd as [? ? ? ? [|] ? ? ?]; reflexivity. Qed.

Lemma hw_r5_halt_run pd do_halt s :
  hw_r5_halt pd do_halt s =
  (tt,
   mkState
     (wr (regs s) rpu_base (cfg_offset (rpu_id pd))
        (if do_halt
         then u32 (Z.land (rd (regs s) rpu_base (cfg_offset (rpu_id pd)))
                          (Z.lnot nCPUHALT_BIT))
         else u32 (Z.lor (rd (regs s) rpu_base (cfg_offset (rpu_id pd))) nCPUHALT_BIT)))
     (remoteprocdev s) (workqueue s),
   [EvPrintk KERN_DEBUG "%s: R5 ID: %d, halt %d\n"
      [PStr "hw_r5_halt"; PInt (rpu_id pd); PInt (Z.b2z do_halt)];
    EvRead rpu_base (cfg_offset (rpu_id pd))
      (rd (regs s) rpu_base (cfg_offset (rpu_id pd)));
    EvWrite rpu_base (cfg_offset (rpu_id pd))
      (u32 (if do_halt
            then u32 (Z.land (rd (regs s) rpu_base (cfg_offset (rpu_id pd)))
                             (Z.lnot nCPUHALT_BIT))
            else u32 (Z.lor (rd (regs s) rpu_base (cfg_offset (rpu_id pd)))
                            nCPUHALT_BIT)))]).
Proof. reflexivity. Qed.

Lemma hw_r5_reset_run pd do_reset s :
  hw_r5_reset pd do_reset s =
  (tt,
   mkState
     (wr (regs s) crl_apb_base RST_LPD_TOP_OFFSET
        (if do_reset
         then u32 (Z.lor (rd (regs s) crl_apb_base RST_LPD_TOP_OFFSET)
                         (Z.shiftl RPU0_RESET_BIT (rpu_id pd)))
         else u32 (Z.land (rd (regs s) crl_apb_base RST_LPD_TOP_OFFSET)
                          (Z.lnot (Z.shiftl RPU0_RESET_BIT (rpu_id pd))))))
     (remoteprocdev s) (workqueue s),
   [EvPrintk KERN_DEBUG "%s: R5 ID: %d, reset %d\n"
      [PStr "hw_r5_reset"; PInt (rpu_id pd); PInt (Z.b2z do_reset)];
    EvRead crl_apb_base RST_LPD_TOP_OFFSET (rd (regs s) crl_apb_base RST_LPD_TOP_OFFSET);
    EvWrite crl_apb_base RST_LPD_TOP_OFFSET
      (u32 (if do_reset
            then u32 (Z.lor (rd (regs s) crl_apb_base RST_LPD_TOP_OFFSET)
                            (Z.shiftl RPU0_RESET_BIT (rpu_id pd)))
            else u32 (Z.land (rd (regs s) crl_apb_base RST_LPD_TOP_OFFSET)
                             (Z.lnot (Z.shiftl RPU0_RESET_BIT (rpu_id pd))))))]).
Proof. reflexivity. Qed.

Lemma hw_ipi_reset_run pd s :
  hw_ipi_reset pd s =
  (tt,
   mkState (wr (wr (regs s) ipi_base IDR_OFFSET IPI_ALL_MASK) ipi_base ISR_OFFSET IPI_ALL_MASK)
           (remoteprocdev s) (workqueue s),
   [EvWrite ipi_base IDR_OFFSET (u32 IPI_ALL_MASK);
    EvWrite ipi_base ISR_OFFSET (u32 IPI_ALL_MASK);
    EvUdelay 10;
    EvPrintk KERN_DEBUG "IPI reset done\n" []]).
Proof. reflexivity. Qed.

Lemma hw_set_ipi_mask_run pd s :
  hw_set_ipi_mask pd s =
  (tt,
   mkState (wr (regs s) ipi_base IER_OFFSET (ipi_dest_mask pd))
           (remoteprocdev s) (workqueue s),
   [EvPrintk KERN_DEBUG "%s: set IPI mask %08x\n"
      [PStr "hw_set_ipi_mask"; PInt (ipi_dest_mask pd)];
    EvWrite ipi_base IER_OFFSET (u32 (ipi_dest_mask pd))]).
Proof. reflexivity. Qed.

(** The reset bit of a core is bit [rpu_id] of the LPD reset register. *)
Lemma reset_bit_is_BIT id : Z.shiftl RPU0_RESET_BIT id = BIT id.
Proof. unfold RPU0_RESET_BIT, BIT; cbn [Z.shiftl]; reflexivity. Qed.

(** ** Core mode, boot device and notification reset *)

(** C4: on every initial value of the shared core-configuration register
    (offset 0 of the RPU window), the direct [configureCoreMode] reads the
    register and writes it back with the split-mode bit (3) equal to
    "mode is Split" and the clamp (4) and TCM-combine (6) bits equal to the
    opposite; so Split sets bit 3 and clears bits 4 and 6, and LockStep does
    the exact inverse. Every other bit is written back as read. *)
Theorem hw_r5_core_config_mode_bits (pd : zynqmp_r5_rproc_pdata) (s : state) :
  let v := rd (regs s) rpu_base RPU_GLBL_CNTL_OFFSET in
  let v' := rd (regs (exec (hw_r5_core_config pd) s)) rpu_base RPU_GLBL_CNTL_OFFSET in
  emitted (hw_r5_core_config pd) s =
    [EvPrintk KERN_DEBUG "%s: mode: %d\n"
       [PStr "hw_r5_core_config"; PInt (rpu_core_conf_val (rpu_mode pd))];
     EvRead rpu_base RPU_GLBL_CNTL_OFFSET v;
     EvWrite rpu_base RPU_GLBL_CNTL_OFFSET v'] /\
  SLSPLIT_BIT = 2 ^ 3 /\ SLCLAMP_BIT = 2 ^ 4 /\ TCM_COMB_BIT = 2 ^ 6 /\
  forall n,
    Z.testbit v' n =
    if n =? 3 then is_split (rpu_mode pd)
    else if (n =? 4) || (n =? 6) then negb (is_split (rpu_mode pd))
    else Z.testbit v n.
Proof.
  cbv zeta. unfold exec, emitted, RPU_GLBL_CNTL_OFFSET.
  rewrite hw_r5_core_config_run; cbn [fst snd regs].
  rewrite rd_wr; cbn [window_eqb andb Z.eqb].
  repeat split.
  intros n. unfold rd, SLSPLIT_BIT, TCM_COMB_BIT, SLCLAMP_BIT.
  destruct (is_split (rpu_mode pd)); cbn [negb]; rewrite u32_idem;
    repeat first [rewrite testbit_clear_bit by lia | rewrite testbit_set_bit by lia];
    destruct (Z.eqb_spec n 3), (Z.eqb_spec n 4), (Z.eqb_spec n 6);
    cbn [orb]; try reflexivity; lia.
Qed.

(** C5: on every register state, the direct [setBootDevice] reads the
    per-core configuration register at the offset chosen by the core id
    (0x100 for core 0, 0x200 otherwise, two different offsets), and writes
    it back with the boot-source bit (2) set exactly when the boot memory is
    OCM; the other bits are written back as read. *)
Theorem hw_r5_boot_dev_boot_bit (pd : zynqmp_r5_rproc_pdata) (s : state) :
  let off := cfg_offset (rpu_id pd) in
  let v := rd (regs s) rpu_base off in
  let v' := rd (regs (exec (hw_r5_boot_dev pd) s)) rpu_base off in
  emitted (hw_r5_boot_dev pd) s =
    [EvPrintk KERN_DEBUG "%s: R5 ID: %d, boot_dev %d\n"
       [PStr "hw_r5_boot_dev"; PInt (rpu_id pd); PInt (rpu_bootmem_val (bootmem pd))];
     EvRead rpu_base off v;
     EvWrite rpu_base off v'] /\
  (forall n, Z.testbit v' n = if n =? 2 then is_ocm (bootmem pd) else Z.testbit v n) /\
  VINITHI_BIT = 2 ^ 2 /\
  cfg_offset 0 = 0x100 /\ cfg_offset 1 = 0x200 /\ cfg_offset 0 <> cfg_offset 1.
Proof.
  cbv zeta. unfold exec, emitted.
  rewrite hw_r5_boot_dev_run; cbn [fst snd regs].
  rewrite rd_wr, Z.eqb_refl; cbn [window_eqb andb].
  repeat split; try discriminate.
  intros n. unfold rd, VINITHI_BIT.
  destruct (is_ocm (bootmem pd)); rewrite u32_idem;
    first [rewrite testbit_clear_bit by lia | rewrite testbit_set_bit by lia];
    reflexivity.
Qed.

(** C6: the direct [resetNotificationChannel] writes the mask constant
    0x0F0F0301 to the disable register (IDR, 0x1C), then to the status
    register (ISR, 0x10), then waits 10 microseconds, and only then returns
    (after a debug line); both registers hold the constant afterwards. *)
Theorem hw_ipi_reset_sequence (pd : zynqmp_r5_rproc_pdata) (s : state) :
  emitted (hw_ipi_reset pd) s =
    [EvWrite ipi_base 0x1C 0x0F0F0301;
     EvWrite ipi_base 0x10 0x0F0F0301;
     EvUdelay 10;
     EvPrintk KERN_DEBUG "IPI reset done\n" []] /\
  value (hw_ipi_reset pd) s = tt /\
  rd (regs (exec (hw_ipi_reset pd) s)) ipi_base IDR_OFFSET = IPI_ALL_MASK /\
  rd (regs (exec (hw_ipi_reset pd) s)) ipi_base ISR_OFFSET = IPI_ALL_MASK /\
  IDR_OFFSET = 0x1C /\ ISR_OFFSET = 0x10 /\ IPI_ALL_MASK = 0x0F0F0301.
Proof.
  unfold exec, emitted, value.
  rewrite hw_ipi_reset_run; cbn [fst snd regs].
  rewrite !rd_wr.
  repeat split.
Qed.

(** ** Frame of the read-modify-write operations *)

Lemma rmw_one_bit (r : regfile) w0 reg0 k (v : bool) newval :
  (forall n, Z.testbit (u32 newval) n =
             if n =? k then v else Z.testbit (rd r w0 reg0) n) ->
  forall w reg n,
    Z.testbit (rd (wr r w0 reg0 newval) w reg) n =
    match at_bit w0 reg0 k v w reg n with
    | Some b => b
    | None => Z.testbit (rd r w reg) n
    end.
Proof.
  intros Hbits w reg n. rewrite rd_wr. unfold at_bit.
  destruct (window_eqb w0 w) eqn:Hw; cbn [andb]; [ | reflexivity].
  apply window_eqb_eq in Hw; subst w.
  destruct (Z.eqb_spec reg0 reg) as [<- | _]; cbn [andb]; [ | reflexivity].
  rewrite Hbits, (Z.eqb_sym k n).
  destruct (n =? k); reflexivity.
Qed.

Lemma hw_r5_boot_dev_bits pd s w reg n :
  Z.testbit (rd (regs (exec (hw_r5_boot_dev pd) s)) w reg) n =
  match at_bit rpu_base (cfg_offset (rpu_id pd)) 2 (is_ocm (bootmem pd)) w reg n with
  | Some v => v
  | None => Z.testbit (rd (regs s) w reg) n
  end.
Proof.
  unfold exec. rewrite hw_r5_boot_dev_run; cbn [fst snd regs].
  apply rmw_one_bit. intros k. unfold rd, VINITHI_BIT.
  destruct (is_ocm (bootmem pd)); rewrite u32_idem;
    first [rewrite testbit_clear_bit by lia | rewrite testbit_set_bit by lia];
    reflexivity.
Qed.

Lemma hw_r5_halt_bits pd b s w reg n :
  Z.testbit (rd (regs (exec (hw_r5_halt pd b) s)) w reg) n =
  match at_bit rpu_base (cfg_offset (rpu_id pd)) 0 (negb b) w reg n with
  | Some v => v
  | None => Z.testbit (rd (regs s) w reg) n
  end.
Proof.
  unfold exec. rewrite hw_r5_halt_run; cbn [fst snd regs].
  apply rmw_one_bit. intros k. unfold rd, nCPUHALT_BIT.
  destruct b; cbn [negb]; rewrite u32_idem;
    first [rewrite testbit_clear_bit by lia | rewrite testbit_set_bit by lia];
    reflexivity.
Qed.

Lemma hw_r5_reset_bits pd b s w reg n :
  0 <= rpu_id pd < 32 ->
  Z.testbit (rd (regs (exec (hw_r5_reset pd b) s)) w reg) n =
  match at_bit crl_apb_base RST_LPD_TOP_OFFSET (rpu_id pd) b w reg n with
  | Some v => v
  | None => Z.testbit (rd (regs s) w reg) n
  end.
Proof.
  intros Hid. unfold exec. rewrite hw_r5_reset_run; cbn [fst snd regs].
  apply rmw_one_bit. intros k. rewrite reset_bit_is_BIT. unfold rd.
  destruct b; rewrite u32_idem;
    first [rewrite testbit_clear_bit by lia | rewrite testbit_set_bit by lia];
    reflexivity.
Qed.

Lemma hw_r5_core_config_bits pd s w reg n :
  Z.testbit (rd (regs (exec (hw_r5_core_config pd) s)) w reg) n =
  if window_eqb rpu_base w && (RPU_GLBL_CNTL_OFFSET =? reg)
     && ((n =? 3) || (n =? 4) || (n =? 6))
  then (if n =? 3 then is_split (rpu_mode pd) else negb (is_split (rpu_mode pd)))
  else Z.testbit (rd (regs s) w reg) n.
Proof.
  unfold exec. rewrite hw_r5_core_config_run; cbn [fst snd regs].
  rewrite rd_wr. unfold RPU_GLBL_CNTL_OFFSET.
  destruct (window_eqb rpu_base w) eqn:Hw; cbn [andb]; [ | reflexivity].
  apply window_eqb_eq in Hw; subst w.
  destruct (Z.eqb_spec 0 reg) as [<- | _]; cbn [andb]; [ | reflexivity].
  unfold rd, SLSPLIT_BIT, TCM_COMB_BIT, SLCLAMP_BIT.
  destruct (is_split (rpu_mode pd)); cbn [negb]; rewrite u32_idem;
    repeat first [rewrite testbit_clear_bit by lia | rewrite testbit_set_bit by lia];
    destruct (Z.eqb_spec n 3), (Z.eqb_spec n 4), (Z.eqb_spec n 6);
    cbn [orb]; try reflexivity; lia.
Qed.

(** The notification operations only write registers of the IPI window. *)
Lemma hw_ipi_reset_regs pd s w reg :
  rd (regs (exec (hw_ipi_reset pd) s)) w reg =
  if window_eqb ipi_base w && ((ISR_OFFSET =? reg) || (IDR_OFFSET =? reg))
  then IPI_ALL_MASK
  else rd (regs s) w reg.
Proof.
  unfold exec. rewrite hw_ipi_reset_run; cbn [fst snd regs].
  rewrite !rd_wr.
  destruct (window_eqb ipi_base w); cbn [andb]; [ | reflexivity].
  destruct (ISR_OFFSET =? reg), (IDR_OFFSET =? reg); reflexivity.
Qed.

Lemma hw_set_ipi_mask_regs pd s w reg :
  rd (regs (exec (hw_set_ipi_mask pd) s)) w reg =
  if window_eqb ipi_base w && (IER_OFFSET =? reg)
  then u32 (ipi_dest_mask pd)
  else rd (regs s) w reg.
Proof.
  unfold exec. rewrite hw_set_ipi_mask_run; cbn [fst snd regs].
  apply rd_wr.
Qed.

(** C10: each direct read-modify-write operation changes only its own
    bits, for every content of the backing registers: [setBootDevice] the
    boot-source bit (2) of the selected per-core configuration register,
    [setHalt] the run/halt bit (0) of that register, [setReset] the bit at
    position [rpu_id] of the LPD reset register, and [configureCoreMode]
    the split-mode (3), clamp (4) and TCM-combine (6) bits of the shared
    control register. Every other bit of every register, the registry and
    the work bindings are left as they were. *)
Theorem hw_rpu_ops_change_only_their_bits
    (pd : zynqmp_r5_rproc_pdata) (b : bool) (s : state) :
  0 <= rpu_id pd < MAX_INSTANCES ->
  changes_only (hw_r5_boot_dev pd) s
    (at_bit rpu_base (cfg_offset (rpu_id pd)) 2 (is_ocm (bootmem pd))) /\
  changes_only (hw_r5_halt pd b) s
    (at_bit rpu_base (cfg_offset (rpu_id pd)) 0 (negb b)) /\
  changes_only (hw_r5_reset pd b) s
    (at_bit crl_apb_base RST_LPD_TOP_OFFSET (rpu_id pd) b) /\
  changes_only (hw_r5_core_config pd) s
    (fun w reg n =>
       if window_eqb rpu_base w && (RPU_GLBL_CNTL_OFFSET =? reg)
          && ((n =? 3) || (n =? 4) || (n =? 6))
       then Some (if n =? 3 then is_split (rpu_mode pd)
                  else negb (is_split (rpu_mode pd)))
       else None).
Proof.
  intros Hid. unfold MAX_INSTANCES in Hid. unfold changes_only.
  repeat match goal with |- _ /\ _ => split end; try reflexivity; intros w reg n.
  - apply hw_r5_boot_dev_bits.
  - apply hw_r5_halt_bits.
  - apply hw_r5_reset_bits; lia.
  - rewrite hw_r5_core_config_bits.
    destruct (window_eqb rpu_base w && (RPU_GLBL_CNTL_OFFSET =? reg)
              && ((n =? 3) || (n =? 4) || (n =? 6))); reflexivity.
Qed.

Lemma hw_rpu_ops_change_only_their_bits_witness :
  0 <= rpu_id sample_pdata < MAX_INSTANCES /\
  changes_only (hw_r5_reset sample_pdata true) sample_state
    (at_bit crl_apb_base RST_LPD_TOP_OFFSET (rpu_id sample_pdata) true).
Proof.
  assert (H : 0 <= rpu_id sample_pdata < MAX_INSTANCES) by (cbn; unfold MAX_INSTANCES; lia).
  split; [exact H | ].
  exact (proj1 (proj2 (proj2
    (hw_rpu_ops_change_only_their_bits sample_pdata true sample_state H)))).
Defined.

(** ** The placeholder backends *)

(** C7: for an instance bound to the secure-monitor-call or the
    hypervisor-call variant, each of the eight backend operations returns
    to its caller, leaves the whole state (registers, registry, work
    bindings) exactly as it was, and emits nothing but one error-level
    diagnostic. *)
Theorem stub_backend_ops_no_effect
    (m : control_method) (pd : zynqmp_r5_rproc_pdata) (b : bool) (s : state) :
  m <> HW ->
  bound_to m pd ->
  List.length (backend_ops pd b) = 8%nat /\
  Forall (fun op : M unit =>
            exists fmt args, op s = (tt, s, [EvPrintk KERN_ERR fmt args]))
         (backend_ops pd b).
Proof.
  intros Hm Hb. split; [reflexivity | ].
  unfold backend_ops.
  destruct m; cbn [bound_to] in Hb; destruct Hb as [-> ->]; try congruence;
    cbn [ipi_ops_at rpu_ops_at
         core_conf bootdev halt en_reset clear reset set_mask trigger
         rpu_smc_ops rpu_hvc_ops ipi_smc_ops ipi_hvc_ops];
    repeat (apply Forall_cons; [do 2 eexists; reflexivity | ]);
    apply Forall_nil.
Qed.

Lemma stub_backend_ops_no_effect_witness :
  Forall (fun op : M unit =>
            exists fmt args, op sample_state = (tt, sample_state, [EvPrintk KERN_ERR fmt args]))
         (backend_ops sample_pdata_smc true).
Proof.
  refine (proj2 (stub_backend_ops_no_effect SMC sample_pdata_smc true sample_state _ _)).
  - discriminate.
  - split; reflexivity.
Defined.

(** ** The boot sequence *)

Lemma array_store_nth {A} (l : list A) i x :
  (i < List.length l)%nat -> nth_error (array_store l i x) i = Some x.
Proof.
  revert i; induction l as [ | h t IH]; intros i Hi; cbn in Hi; [lia | ].
  destruct i as [ | j]; cbn; [reflexivity | apply IH; lia].
Qed.

Lemma init_work_choice (c : bool) pdev :
  (if c then INIT_WORK pdev handle_event0 else INIT_WORK pdev handle_event1) =
  INIT_WORK pdev (if c then handle_event0 else handle_event1).
Proof. destruct c; reflexivity. Qed.

Lemma exec_ret {A} (a : A) s : exec (ret a) s = s.
Proof. reflexivity. Qed.

Lemma exec_emit e s : exec (emit e) s = s.
Proof. reflexivity. Qed.

Lemma emitted_ret {A} (a : A) s : emitted (ret a) s = [].
Proof. reflexivity. Qed.

Lemma emitted_emit e s : emitted (emit e) s = [e].
Proof. reflexivity. Qed.

Lemma exec_INIT_WORK pdev f s :
  exec (INIT_WORK pdev f) s =
  mkState (regs s) (remoteprocdev s)
          (fun d => if d =? pdev then Some f else workqueue s d).
Proof. reflexivity. Qed.

Lemma exec_publish idx pdev s :
  0 <= idx ->
  exec (publish idx pdev) s =
  mkState (regs s) (array_store (remoteprocdev s) (Z.to_nat idx) (Some pdev))
          (workqueue s).
Proof.
  intros Hidx. unfold exec, publish; cbn [fst snd].
  replace (0 <=? idx) with true by (symmetry; apply Z.leb_le; assumption).
  reflexivity.
Qed.

(** Rewriting a run of the lifecycle code into the runs of its steps. *)
Ltac run_steps :=
  unfold dev_dbg, pr_debug, pr_err, udelay, flush_cache_all, schedule_work;
  repeat first
    [ rewrite value_bind | rewrite exec_bind | rewrite emitted_bind
    | rewrite exec_ret | rewrite exec_emit | rewrite emitted_ret
    | rewrite emitted_emit | rewrite exec_INIT_WORK
    | rewrite exec_publish by lia ];
  cbn [regs remoteprocdev workqueue app].

(** C2: for every instance, whichever backend it is bound to, [start]
    performs, in this order: bind the deferred-task handle, flush the data
    cache, publish the instance in the registry under its core id,
    configureCoreMode, setReset(true), setHalt(true), setBootDevice, a
    delay of 500, setReset(false), setHalt(false), resetNotificationChannel,
    programDestinationMask; each operation runs on the state its
    predecessor left, nothing else is done in between (two debug lines
    apart), and [start] returns 0. Afterwards the registry holds the device
    at the core id and the work item is bound to the handler of that id. *)
Theorem zynqmp_r5_rproc_start_sequence
    (pdev : platform_device) (pd : zynqmp_r5_rproc_pdata) (s : state) :
  0 <= rpu_id pd < MAX_INSTANCES ->
  List.length (remoteprocdev s) = Z.to_nat MAX_INSTANCES ->
  let R := rpu_ops_at (rpu_ops pd) in
  let I := ipi_ops_at (ipi_ops pd) in
  let h := work_func_for (rpu_id pd) in
  let s0 := mkState (regs s)
                    (array_store (remoteprocdev s) (Z.to_nat (rpu_id pd)) (Some pdev))
                    (fun d => if d =? pdev then Some h else workqueue s d) in
  let s1 := exec (core_conf R pd) s0 in
  let s2 := exec (en_reset R pd true) s1 in
  let s3 := exec (halt R pd true) s2 in
  let s4 := exec (bootdev R pd) s3 in
  let s5 := exec (en_reset R pd false) s4 in
  let s6 := exec (halt R pd false) s5 in
  let s7 := exec (reset I pd) s6 in
  let s8 := exec (set_mask I pd) s7 in
  value (zynqmp_r5_rproc_start pdev pd) s = 0 /\
  exec (zynqmp_r5_rproc_start pdev pd) s = s8 /\
  emitted (zynqmp_r5_rproc_start pdev pd) s =
    [EvPrintk KERN_DEBUG "%s\n" [PStr "zynqmp_r5_rproc_start"];
     EvInitWork pdev h;
     EvFlushCacheAll;
     EvPublish (rpu_id pd) pdev]
    ++ emitted (core_conf R pd) s0
    ++ emitted (en_reset R pd true) s1
    ++ emitted (halt R pd true) s2
    ++ emitted (bootdev R pd) s3
    ++ [EvUdelay 500]
    ++ emitted (en_reset R pd false) s4
    ++ emitted (halt R pd false) s5
    ++ [EvPrintk KERN_DEBUG "%s\n" [PStr "ipi_init"]]
    ++ emitted (reset I pd) s6
    ++ emitted (set_mask I pd) s7 /\
  nth_error (remoteprocdev s8) (Z.to_nat (rpu_id pd)) = Some (Some pdev) /\
  workqueue s8 pdev = Some h.
Proof.
  intros Hid Hlen. cbv zeta.
  unfold zynqmp_r5_rproc_start, ipi_init, work_func_for.
  rewrite init_work_choice.
  repeat split.
  - run_steps. reflexivity.
  - run_steps. reflexivity.
  - run_steps. rewrite ?app_nil_r. reflexivity.
  - refine (eq_trans _ (array_store_nth (remoteprocdev s) (Z.to_nat (rpu_id pd))
                                        (Some pdev) _)).
    + destruct (ipi_ops pd), (rpu_ops pd); reflexivity.
    + rewrite Hlen. unfold MAX_INSTANCES in *. lia.
  - transitivity (if pdev =? pdev then Some (work_func_for (rpu_id pd))
                  else workqueue s pdev).
    + destruct (ipi_ops pd), (rpu_ops pd); reflexivity.
    + rewrite Z.eqb_refl. reflexivity.
Qed.

Lemma zynqmp_r5_rproc_start_sequence_witness :
  value (zynqmp_r5_rproc_start 7 sample_pdata) sample_state = 0 /\
  emitted (zynqmp_r5_rproc_start 7 sample_pdata) sample_state =
    [EvPrintk KERN_DEBUG "%s\n" [PStr "zynqmp_r5_rproc_start"];
     EvInitWork 7 handle_event0;
     EvFlushCacheAll;
     EvPublish 0 7;
     EvPrintk KERN_DEBUG "%s: mode: %d\n" [PStr "hw_r5_core_config"; PInt 0];
     EvRead rpu_base 0 0; EvWrite rpu_base 0 0x50;
     EvPrintk KERN_DEBUG "%s: R5 ID: %d, reset %d\n" [PStr "hw_r5_reset"; PInt 0; PInt 1];
     EvRead crl_apb_base 0x23C 1; EvWrite crl_apb_base 0x23C 1;
     EvPrintk KERN_DEBUG "%s: R5 ID: %d, halt %d\n" [PStr "hw_r5_halt"; PInt 0; PInt 1];
     EvRead rpu_base 0x100 0; EvWrite rpu_base 0x100 0;
     EvPrintk KERN_DEBUG "%s: R5 ID: %d, boot_dev %d\n"
       [PStr "hw_r5_boot_dev"; PInt 0; PInt 0];
     EvRead rpu_base 0x100 0; EvWrite rpu_base 0x100 0;
     EvUdelay 500;
     EvPrintk KERN_DEBUG "%s: R5 ID: %d, reset %d\n" [PStr "hw_r5_reset"; PInt 0; PInt 0];
     EvRead crl_apb_base 0x23C 1; EvWrite crl_apb_base 0x23C 0;
     EvPrintk KERN_DEBUG "%s: R5 ID: %d, halt %d\n" [PStr "hw_r5_halt"; PInt 0; PInt 0];
     EvRead rpu_base 0x100 0; EvWrite rpu_base 0x100 1;
     EvPrintk KERN_DEBUG "%s\n" [PStr "ipi_init"];
     EvWrite ipi_base 0x1C 0x0F0F0301; EvWrite ipi_base 0x10 0x0F0F0301;
     EvUdelay 10;
     EvPrintk KERN_DEBUG "IPI reset done\n" [];
     EvPrintk KERN_DEBUG "%s: set IPI mask %08x\n" [PStr "hw_set_ipi_mask"; PInt 0x100];
     EvWrite ipi_base 0x18 0x100].
Proof.
  destruct (zynqmp_r5_rproc_start_sequence 7 sample_pdata sample_state)
    as [Hv [_ [Ht _]]].
  - cbn; unfold MAX_INSTANCES; lia.
  - reflexivity.
  - split; [exact Hv | rewrite Ht; reflexivity].
Defined.

(** ** Start followed by stop *)

Lemma cfg_offset_cases id :
  0 <= id < MAX_INSTANCES ->
  (id = 0 /\ cfg_offset id = 0x100) \/ (id = 1 /\ cfg_offset id = 0x200).
Proof. unfold MAX_INSTANCES; intros H. assert (id = 0 \/ id = 1) as [-> | ->] by lia; auto. Qed.

(** Rewriting the registers after a run of direct operations into the
    registers before it. *)
Ltac reg_steps :=
  rewrite ?hw_set_ipi_mask_regs, ?hw_ipi_reset_regs;
  cbn [window_eqb andb];
  repeat first
    [ rewrite hw_r5_halt_bits | rewrite hw_r5_boot_dev_bits
    | rewrite hw_r5_reset_bits by (unfold MAX_INSTANCES in *; lia)
    | rewrite hw_r5_core_config_bits ];
  unfold at_bit; cbn [window_eqb andb].

(** Case analysis on every integer comparison of the goal. *)
Ltac eqb_cases :=
  repeat match goal with
         | |- context [Z.eqb ?a ?b] => destruct (Z.eqb_spec a b)
         end;
  cbn [andb orb negb]; first [reflexivity | lia].

Lemma ipi_reg_cases (b1 b2 : bool) (x y z : Z) (n : Z) :
  Z.testbit (if b1 then x else if b2 then y else z) n =
  if b1 then Z.testbit x n else if b2 then Z.testbit y n else Z.testbit z n.
Proof. destruct b1, b2; reflexivity. Qed.

(** Every bit of every register after [start] on a direct instance. *)
Lemma start_effect_bits pdev pd s w reg n :
  bound_to HW pd ->
  0 <= rpu_id pd < MAX_INSTANCES ->
  Z.testbit (rd (regs (exec (zynqmp_r5_rproc_start pdev pd) s)) w reg) n =
  match w with
  | crl_apb_base =>
      if (reg =? RST_LPD_TOP_OFFSET) && (n =? rpu_id pd) then false
      else Z.testbit (rd (regs s) w reg) n
  | rpu_base =>
      if (reg =? cfg_offset (rpu_id pd)) && (n =? 0) then true
      else if (reg =? cfg_offset (rpu_id pd)) && (n =? 2) then is_ocm (bootmem pd)
      else if (reg =? RPU_GLBL_CNTL_OFFSET) && (n =? 3) then is_split (rpu_mode pd)
      else if (reg =? RPU_GLBL_CNTL_OFFSET) && ((n =? 4) || (n =? 6))
           then negb (is_split (rpu_mode pd))
      else Z.testbit (rd (regs s) w reg) n
  | ipi_base =>
      if reg =? IER_OFFSET then Z.testbit (u32 (ipi_dest_mask pd)) n
      else if (reg =? ISR_OFFSET) || (reg =? IDR_OFFSET) then Z.testbit IPI_ALL_MASK n
      else Z.testbit (rd (regs s) w reg) n
  end.
Proof.
  intros [Hi Hr] Hid.
  unfold zynqmp_r5_rproc_start, ipi_init.
  rewrite Hi, Hr, init_work_choice.
  cbn [ipi_ops_at rpu_ops_at core_conf bootdev halt en_reset reset set_mask
       rpu_hw_ops ipi_hw_ops].
  run_steps.
  rewrite hw_set_ipi_mask_regs, hw_ipi_reset_regs, ipi_reg_cases.
  destruct w; cbn [window_eqb andb].
  - reg_steps.
    destruct (cfg_offset_cases _ Hid) as [[E1 E2] | [E1 E2]];
      rewrite ?E1, ?E2; unfold RPU_GLBL_CNTL_OFFSET; eqb_cases.
  - reg_steps.
    destruct (cfg_offset_cases _ Hid) as [[E1 E2] | [E1 E2]];
      rewrite ?E1, ?E2; unfold RST_LPD_TOP_OFFSET; eqb_cases.
  - unfold IER_OFFSET, ISR_OFFSET, IDR_OFFSET.
    destruct (Z.eqb_spec 24 reg), (Z.eqb_spec reg 24); try lia;
      destruct (Z.eqb_spec 16 reg), (Z.eqb_spec reg 16); try lia;
      destruct (Z.eqb_spec 28 reg), (Z.eqb_spec reg 28); try lia;
      cbn [orb]; try reflexivity.
    all: reg_steps; reflexivity.
Qed.

(** Every bit of every register after [stop] on a direct instance. *)
Lemma stop_effect_bits pdev pd s w reg n :
  bound_to HW pd ->
  0 <= rpu_id pd < MAX_INSTANCES ->
  Z.testbit (rd (regs (exec (zynqmp_r5_rproc_stop pdev pd) s)) w reg) n =
  match w with
  | crl_apb_base =>
      if (reg =? RST_LPD_TOP_OFFSET) && (n =? rpu_id pd) then true
      else Z.testbit (rd (regs s) w reg) n
  | rpu_base =>
      if (reg =? cfg_offset (rpu_id pd)) && (n =? 0) then false
      else Z.testbit (rd (regs s) w reg) n
  | ipi_base =>
      if (reg =? ISR_OFFSET) || (reg =? IDR_OFFSET) then Z.testbit IPI_ALL_MASK n
      else Z.testbit (rd (regs s) w reg) n
  end.
Proof.
  intros [Hi Hr] Hid.
  unfold zynqmp_r5_rproc_stop.
  rewrite Hi, Hr.
  cbn [ipi_ops_at rpu_ops_at core_conf bootdev halt en_reset reset set_mask
       rpu_hw_ops ipi_hw_ops].
  run_steps.
  rewrite hw_ipi_reset_regs.
  destruct w; cbn [window_eqb andb].
  - reg_steps.
    destruct (cfg_offset_cases _ Hid) as [[E1 E2] | [E1 E2]];
      rewrite ?E1, ?E2; eqb_cases.
  - reg_steps.
    destruct (cfg_offset_cases _ Hid) as [[E1 E2] | [E1 E2]];
      rewrite ?E1, ?E2; unfold RST_LPD_TOP_OFFSET; eqb_cases.
  - unfold ISR_OFFSET, IDR_OFFSET.
    destruct (Z.eqb_spec 16 reg), (Z.eqb_spec reg 16); try lia;
      destruct (Z.eqb_spec 28 reg), (Z.eqb_spec reg 28); try lia;
      cbn [orb]; try reflexivity.
    all: reg_steps; reflexivity.
Qed.

(** C3: for a direct-variant instance whose registers show it in reset and
    halted, as a freshly constructed, never-started instance begins, [start]
    leaves the core running and [start] followed by [stop] leaves the
    registers in that same reset-and-halted state: the reset bit and the
    halt state after the round trip are those of the initial registers.
    Register by register: the LPD reset register, and every register other
    than the shared control register, the core's configuration register and
    the notification enable, status and disable registers, reads exactly its
    initial value; the configuration register has its initial halt bit and
    differs from its initial value at most in the boot-source bit (2), which
    holds the configured boot memory; the shared control register differs
    at most in the mode bits (3, 4 and 6), which hold the configured core
    mode; the notification enable register holds the destination mask and
    the status and disable registers the all-sources mask. *)
Theorem start_then_stop_round_trip
    (pdev : platform_device) (pd : zynqmp_r5_rproc_pdata) (s : state) :
  bound_to HW pd ->
  0 <= rpu_id pd < MAX_INSTANCES ->
  stopped pd (regs s) = true ->
  let s1 := exec (zynqmp_r5_rproc_start pdev pd) s in
  let s2 := exec (zynqmp_r5_rproc_stop pdev pd) s1 in
  value (zynqmp_r5_rproc_start pdev pd) s = 0 /\
  value (zynqmp_r5_rproc_stop pdev pd) s1 = 0 /\
  running pd (regs s1) = true /\
  stopped pd (regs s2) = true /\
  in_reset pd (regs s2) = in_reset pd (regs s) /\
  halted pd (regs s2) = halted pd (regs s) /\
  rd (regs s2) crl_apb_base RST_LPD_TOP_OFFSET =
    rd (regs s) crl_apb_base RST_LPD_TOP_OFFSET /\
  (forall n,
     Z.testbit (rd (regs s2) rpu_base (cfg_offset (rpu_id pd))) n =
     if n =? 2 then is_ocm (bootmem pd)
     else Z.testbit (rd (regs s) rpu_base (cfg_offset (rpu_id pd))) n) /\
  (forall w reg,
     (w = rpu_base ->
      reg <> RPU_GLBL_CNTL_OFFSET /\ reg <> cfg_offset (rpu_id pd)) ->
     (w = ipi_base ->
      reg <> IER_OFFSET /\ reg <> ISR_OFFSET /\ reg <> IDR_OFFSET) ->
     rd (regs s2) w reg = rd (regs s) w reg) /\
  (forall n,
     Z.testbit (rd (regs s2) rpu_base RPU_GLBL_CNTL_OFFSET) n =
     if n =? 3 then is_split (rpu_mode pd)
     else if (n =? 4) || (n =? 6) then negb (is_split (rpu_mode pd))
     else Z.testbit (rd (regs s) rpu_base RPU_GLBL_CNTL_OFFSET) n) /\
  rd (regs s2) ipi_base IER_OFFSET = u32 (ipi_dest_mask pd) /\
  rd (regs s2) ipi_base ISR_OFFSET = IPI_ALL_MASK /\
  rd (regs s2) ipi_base IDR_OFFSET = IPI_ALL_MASK.
Proof.
  intros Hb Hid Hstop. cbv zeta.
  unfold stopped, in_reset, halted in Hstop.
  apply andb_true_iff in Hstop as [Hreset Hhalt].
  apply negb_true_iff in Hhalt.
  pose proof (fun w reg n => start_effect_bits pdev pd s w reg n Hb Hid) as Es.
  pose proof (fun s' w reg n => stop_effect_bits pdev pd s' w reg n Hb Hid) as Ep.
  assert (Hcfg : (cfg_offset (rpu_id pd) =? RPU_GLBL_CNTL_OFFSET) = false)
    by (destruct (cfg_offset_cases _ Hid) as [[_ ->] | [_ ->]]; reflexivity).
  assert (Hglbl : (RPU_GLBL_CNTL_OFFSET =? cfg_offset (rpu_id pd)) = false)
    by (destruct (cfg_offset_cases _ Hid) as [[_ ->] | [_ ->]]; reflexivity).
  split; [unfold zynqmp_r5_rproc_start; run_steps; reflexivity | ].
  split; [unfold zynqmp_r5_rproc_stop; run_steps; reflexivity | ].
  split; [ | split; [ | split; [ | split; [ | split; [ | split;
    [ | split; [ | split; [ | split; [ | split]]]]]]]]].
  - unfold running, in_reset, halted.
    rewrite !Es, !Z.eqb_refl. reflexivity.
  - unfold stopped, in_reset, halted.
    rewrite !Ep, !Z.eqb_refl. reflexivity.
  - unfold in_reset. rewrite Ep, !Z.eqb_refl. symmetry; exact Hreset.
  - unfold halted. rewrite Ep, !Z.eqb_refl. cbn [andb].
    rewrite Hhalt. reflexivity.
  - apply Z.bits_inj'. intros n _.
    rewrite Ep, Es, Z.eqb_refl. cbn [andb].
    destruct (Z.eqb_spec n (rpu_id pd)) as [-> | _]; [ | reflexivity].
    symmetry; exact Hreset.
  - intros n.
    rewrite Ep, Es, Z.eqb_refl, Hcfg. cbn [andb].
    destruct (Z.eqb_spec n 0) as [-> | _]; [ | reflexivity].
    cbn [Z.eqb]. symmetry; exact Hhalt.
  - intros w reg Hrpu Hipi.
    apply Z.bits_inj'. intros n _. rewrite Ep, Es.
    destruct w.
    + destruct (Hrpu eq_refl) as [H1 H2].
      apply Z.eqb_neq in H1, H2. rewrite H1, H2. reflexivity.
    + destruct ((reg =? RST_LPD_TOP_OFFSET) && (n =? rpu_id pd)) eqn:E;
        [ | reflexivity].
      apply andb_true_iff in E as [E1 E2].
      apply Z.eqb_eq in E1, E2. subst reg n.
      symmetry; exact Hreset.
    + destruct (Hipi eq_refl) as (H1 & H2 & H3).
      apply Z.eqb_neq in H1, H2, H3. rewrite H1, H2, H3. reflexivity.
  - intros n. rewrite Ep, Es, Hglbl, Z.eqb_refl. reflexivity.
  - apply Z.bits_inj'. intros n _. rewrite Ep, Es. reflexivity.
  - apply Z.bits_inj'. intros n _. rewrite Ep. reflexivity.
  - apply Z.bits_inj'. intros n _. rewrite Ep. reflexivity.
Qed.

Lemma start_then_stop_round_trip_witness :
  stopped sample_pdata (regs sample_state) = true /\
  stopped sample_pdata
    (regs (exec (zynqmp_r5_rproc_stop 7 sample_pdata)
                (exec (zynqmp_r5_rproc_start 7 sample_pdata) sample_state))) = true /\
  in_reset sample_pdata
    (regs (exec (zynqmp_r5_rproc_stop 7 sample_pdata)
                (exec (zynqmp_r5_rproc_start 7 sample_pdata) sample_state))) =
  in_reset sample_pdata (regs sample_state) /\
  halted sample_pdata
    (regs (exec (zynqmp_r5_rproc_stop 7 sample_pdata)
                (exec (zynqmp_r5_rproc_start 7 sample_pdata) sample_state))) =
  halted sample_pdata (regs sample_state).
Proof.
  assert (Hb : bound_to HW sample_pdata) by (split; reflexivity).
  assert (Hid : 0 <= rpu_id sample_pdata < MAX_INSTANCES)
    by (cbn; unfold MAX_INSTANCES; lia).
  assert (Hs : stopped sample_pdata (regs sample_state) = true) by reflexivity.
  split; [exact Hs | ].
  destruct (start_then_stop_round_trip 7 sample_pdata sample_state Hb Hid Hs)
    as (_ & _ & _ & Hstopped & Hreset & Hhalt & _).
  split; [exact Hstopped | split; [exact Hreset | exact Hhalt]].
Defined.

(** The bits the round trip takes from the configuration rather than from
    the initial registers, on two instances started from registers that are
    zero apart from the reset bit of core 0: a lock-step instance booting
    from TCM ends with the lock-step mode bits in the shared control
    register (0x50) and an unchanged configuration register; the same
    instance booting from OCM ends with the boot-source bit set in its
    configuration register (4). Both end in reset and halted. *)
Example start_then_stop_configured_bits :
  let round pd :=
    regs (exec (zynqmp_r5_rproc_stop 7 pd)
               (exec (zynqmp_r5_rproc_start 7 pd) sample_state)) in
  rd (regs sample_state) rpu_base RPU_GLBL_CNTL_OFFSET = 0 /\
  rd (regs sample_state) rpu_base RPU_0_CFG_OFFSET = 0 /\
  rd (round sample_pdata) rpu_base RPU_GLBL_CNTL_OFFSET = 0x50 /\
  rd (round sample_pdata) rpu_base RPU_0_CFG_OFFSET = 0 /\
  stopped sample_pdata (round sample_pdata) = true /\
  rd (round sample_pdata_ocm) rpu_base RPU_GLBL_CNTL_OFFSET = 0x50 /\
  rd (round sample_pdata_ocm) rpu_base RPU_0_CFG_OFFSET = 4 /\
  stopped sample_pdata_ocm (round sample_pdata_ocm) = true.
Proof. cbv zeta. repeat split. Qed.

(** ** Address translation *)

(** C8: for a host address inside the buffer range of a queue, the
    translation is the physical base mapped to a host virtual address plus
    the offset of the host address from the queue's host virtual base, and
    the inverse mapping of the queue recovers the host address. The ranges
    are the queue's buffer range and its image, both within the 64-bit
    address space. *)
Theorem kva_to_guest_addr_kva_round_trip
    (K : kernel_headers) (va : Z) (rvring : rproc_vring.t) (size : Z) :
  0 <= rproc_vring.va rvring ->
  rproc_vring.va rvring + size <= 2 ^ 64 ->
  0 <= phys_to_virt K (rproc_vring.dma rvring) ->
  phys_to_virt K (rproc_vring.dma rvring) + size <= 2 ^ 64 ->
  rproc_vring.va rvring <= va < rproc_vring.va rvring + size ->
  zynqmp_r5_kva_to_guest_addr_kva K va rvring =
    phys_to_virt K (rproc_vring.dma rvring) + (va - rproc_vring.va rvring) /\
  guest_addr_kva_to_kva K (zynqmp_r5_kva_to_guest_addr_kva K va rvring) rvring = va.
Proof.
  intros Hva Hvahi Hpa Hpahi Hin.
  assert (E : zynqmp_r5_kva_to_guest_addr_kva K va rvring =
              phys_to_virt K (rproc_vring.dma rvring) + (va - rproc_vring.va rvring)).
  { unfold zynqmp_r5_kva_to_guest_addr_kva, u64. apply Z.mod_small. lia. }
  split; [exact E | ].
  rewrite E. unfold guest_addr_kva_to_kva, u64.
  rewrite Z.mod_small by lia. lia.
Qed.

Lemma kva_to_guest_addr_kva_round_trip_witness :
  zynqmp_r5_kva_to_guest_addr_kva kernel_arm64 0xffffff8008000010 sample_rvring =
    0xffffffc03ed00010 /\
  guest_addr_kva_to_kva kernel_arm64
    (zynqmp_r5_kva_to_guest_addr_kva kernel_arm64 0xffffff8008000010 sample_rvring)
    sample_rvring = 0xffffff8008000010.
Proof.
  apply (kva_to_guest_addr_kva_round_trip kernel_arm64 0xffffff8008000010
           sample_rvring 0x4000); cbn; lia.
Defined.

(** ** Instance construction *)

Lemma yields_ret {A} (a : A) (Q : A -> Prop) : Q a -> yields (ret a) Q.
Proof. intros H s; split; [exact H | reflexivity]. Qed.

Lemma yields_emit (e : event) (Q : unit -> Prop) : Q tt -> yields (emit e) Q.
Proof. intros H s; split; [exact H | reflexivity]. Qed.

Lemma yields_bind {A B} (m : M A) (k : A -> M B) (Q : B -> Prop) :
  yields m (fun _ => True) ->
  (forall a, yields (k a) Q) ->
  yields (bind m k) Q.
Proof.
  intros Hm Hk s.
  rewrite value_bind, exec_bind.
  destruct (Hm s) as [_ Es]. rewrite Es.
  apply Hk.
Qed.

(** One step through the body of [probe]: a sequencing, a return, or a
    case analysis on the answer of a kernel service. *)
Ltac probe_step :=
  match goal with
  | |- yields (ret _) _ => apply yields_ret
  | |- yields (emit _) _ => apply yields_emit
  | |- yields (bind _ _) _ => apply yields_bind; [ | intros _ ]
  | |- yields (if ?c then _ else _) _ => destruct c eqn:?
  | |- yields (match ?x with _ => _ end) _ => destruct x eqn:?
  | |- True => exact I
  end.

Lemma u32_never_negative x : (u32 x <? 0) = false.
Proof. apply Z.ltb_ge. apply u32_range. Qed.

Lemma core_conf_parse_known (P : platform) (x : rpu_core_conf * Z) :
  let prop := match of_get_property P "core_conf" with
              | Some p => p
              | None => "lock-step"
              end in
  (if (prop =? "split0")%string then Some (SPLIT, 0)
   else if (prop =? "split1")%string then Some (SPLIT, 1)
   else if (prop =? "lock-step")%string then Some (LOCK_STEP, 0)
   else None) = Some x ->
  core_conf_known P = true /\ 0 <= snd x < MAX_INSTANCES.
Proof.
  cbv zeta. unfold core_conf_known, MAX_INSTANCES.
  destruct (of_get_property P "core_conf") as [p | ].
  - destruct (p =? "split0")%string; [intros [= <-]; cbn; split; [reflexivity | lia] | ].
    destruct (p =? "split1")%string; [intros [= <-]; cbn; split; [reflexivity | lia] | ].
    destruct (p =? "lock-step")%string; [intros [= <-]; cbn; split; [reflexivity | lia] | ].
    discriminate.
  - cbn. intros [= <-]. cbn. split; [reflexivity | lia].
Qed.

Lemma method_parse_known (P : platform)
    (m : control_method) (i : ipi_ops_ptr) (r : rpu_ops_ptr) :
  let prop := match of_get_property P "method" with
              | Some p => p
              | None => "smc"
              end in
  (if (prop =? "direct")%string then Some (HW, addr_ipi_hw_ops, addr_rpu_hw_ops)
   else if (prop =? "hvc")%string then Some (HVC, addr_ipi_hvc_ops, addr_rpu_hvc_ops)
   else if (prop =? "smc")%string then Some (SMC, addr_ipi_smc_ops, addr_rpu_smc_ops)
   else None) = Some (m, i, r) ->
  method_known P = true /\
  match m with
  | HW => i = addr_ipi_hw_ops /\ r = addr_rpu_hw_ops
  | HVC => i = addr_ipi_hvc_ops /\ r = addr_rpu_hvc_ops
  | SMC => i = addr_ipi_smc_ops /\ r = addr_rpu_smc_ops
  end.
Proof.
  cbv zeta. unfold method_known.
  destruct (of_get_property P "method") as [p | ].
  - destruct (p =? "direct")%string; [intros [= <- <- <-]; repeat split | ].
    destruct (p =? "hvc")%string; [intros [= <- <- <-]; repeat split | ].
    destruct (p =? "smc")%string; [intros [= <- <- <-]; repeat split | ].
    discriminate.
  - cbn. intros [= <- <- <-]. repeat split.
Qed.

Lemma bootmem_parse_known (P : platform) (b : rpu_bootmem) :
  let prop := match of_get_property P "bootmem" with
              | Some p => p
              | None => "tcm"
              end in
  (if (prop =? "tcm")%string then Some TCM
   else if (prop =? "ocm")%string then Some OCM
   else None) = Some b ->
  bootmem_known P = true.
Proof.
  cbv zeta. unfold bootmem_known.
  destruct (of_get_property P "bootmem") as [p | ].
  - destruct (p =? "tcm")%string; [reflexivity | ].
    destruct (p =? "ocm")%string; [reflexivity | discriminate].
  - reflexivity.
Qed.

Lemma firmware_name_present (fw prop : option string) :
  match fw with
  | Some f => Some f
  | None => match prop with
            | Some p => Some p
            | None => Some DEFAULT_FIRMWARE_NAME
            end
  end <> None.
Proof. destruct fw, prop; discriminate. Qed.

Lemma probe_yields (K : kernel_headers) (P : platform) (pdev : platform_device)
    (res : resource) :
  devm_kzalloc_ok P = true ->
  platform_get_resource_byname P "vring0" = Some res ->
  yields (zynqmp_r5_remoteproc_probe K P pdev) (probe_post P).
Proof.
  intros Hk Hres.
  unfold zynqmp_r5_remoteproc_probe, rproc_fault, dma_mask_fault, err_exit,
    dev_err, pr_err, dev_warn, dev_info, dev_dbg, pr_debug.
  rewrite Hk, Hres. cbn [negb]. cbv zeta beta.
  repeat probe_step.
  all: unfold probe_post; cbn [fst snd]; try (split; [reflexivity | exact I]).
  all: try match goal with
           | H : _ = None |- _ => exfalso; exact (firmware_name_present _ _ H)
           end.
  all: cbn [rpu_id vring0 ipi_dest_mask bound_to].
  all: match goal with
       | Hc : _ = Some (?r, ?z), Hm : _ = Some (?c, ?i, ?r0), Hb : _ = Some ?r1,
         Hq : negb (devm_request_irq _ _ =? 0) = false,
         Ha : negb (rproc_add _ =? 0) = false |- _ =>
           apply core_conf_parse_known in Hc as [Kc Kid];
           apply method_parse_known in Hm as [Km Kb];
           pose proof (bootmem_parse_known _ _ Hb) as Kbm;
           apply negb_false_iff, Z.eqb_eq in Hq;
           apply negb_false_iff, Z.eqb_eq in Ha
       end.
  all: rewrite Kc, Km, Kbm; cbn [andb snd] in *.
  all: repeat match goal with |- _ /\ _ => split end;
       try assumption; try reflexivity; try (destruct Kid; assumption).
  all: try (destruct (of_property_read_u32 P "ipi_dest_mask");
            [apply u32_range | lia]).
  - exists SMC; exact Kb.
  - exists HVC; exact Kb.
  - exists HW; exact Kb.
Qed.

(** C1 (the code departs from the specification): when the core configuration,
    control method or boot memory string is not one [probe] recognizes,
    [probe] constructs no instance and touches no register, but the value
    it returns is 0, the success code, and not an error: every error label
    ends in [return 0]. *)
Theorem probe_unrecognized_string_returns_zero
    (K : kernel_headers) (P : platform) (pdev : platform_device)
    (res : resource) (s : state) :
  devm_kzalloc_ok P = true ->
  platform_get_resource_byname P "vring0" = Some res ->
  core_conf_known P && method_known P && bootmem_known P = false ->
  value (zynqmp_r5_remoteproc_probe K P pdev) s = (0, None) /\
  exec (zynqmp_r5_remoteproc_probe K P pdev) s = s.
Proof.
  intros Hk Hres Hbad.
  destruct (probe_yields K P pdev res Hk Hres s) as [[Hret Hinst] Hs].
  split; [ | exact Hs].
  destruct (value (zynqmp_r5_remoteproc_probe K P pdev) s) as [r [pd | ]];
    cbn [fst snd] in *.
  - destruct Hinst as [Hknown _]. congruence.
  - rewrite Hret. reflexivity.
Qed.

Lemma probe_unrecognized_string_returns_zero_witness :
  value (zynqmp_r5_remoteproc_probe kernel_arm64
           (sample_platform "bogus" "direct" "tcm" 79) 7) sample_state = (0, None) /\
  exec (zynqmp_r5_remoteproc_probe kernel_arm64
          (sample_platform "bogus" "direct" "tcm" 79) 7) sample_state = sample_state.
Proof.
  apply (probe_unrecognized_string_returns_zero kernel_arm64
           (sample_platform "bogus" "direct" "tcm" 79) 7
           (mkResource 0x3ed00000 0x3ed03fff) sample_state); reflexivity.
Defined.

Lemma silent_ret {A} (e : event) (a : A) : silent_on e (ret a).
Proof. intros s H; exact H. Qed.

Lemma silent_emit (e e' : event) : e <> e' -> silent_on e (emit e').
Proof. intros Hne s [H | []]. apply Hne; symmetry; exact H. Qed.

Lemma silent_bind {A B} (e : event) (m : M A) (k : A -> M B) :
  silent_on e m ->
  (forall a, silent_on e (k a)) ->
  silent_on e (bind m k).
Proof.
  intros Hm Hk s. rewrite emitted_bind. intros H.
  apply in_app_or in H as [H | H]; [exact (Hm s H) | exact (Hk _ _ H)].
Qed.

Ltac silent_step :=
  match goal with
  | |- silent_on _ (ret _) => apply silent_ret
  | |- silent_on _ (emit _) => apply silent_emit; discriminate
  | |- silent_on _ (bind _ _) => apply silent_bind; [ | intros _ ]
  | |- silent_on _ (if ?c then _ else _) => destruct c
  | |- silent_on _ (match ?x with _ => _ end) => destruct x
  end.

(** The branch of [probe] that reports a missing interrupt line is dead:
    its guard compares an unsigned value with zero. *)
Lemma probe_never_reports_missing_irq
    (K : kernel_headers) (P : platform) (pdev : platform_device) :
  silent_on (EvPrintk KERN_ERR "unable to find IPI IRQ\n" [])
            (zynqmp_r5_remoteproc_probe K P pdev).
Proof.
  unfold zynqmp_r5_remoteproc_probe, rproc_fault, dma_mask_fault, err_exit,
    dev_err, pr_err, dev_warn, dev_info, dev_dbg, pr_debug.
  rewrite u32_never_negative. cbv zeta beta.
  repeat silent_step.
Qed.

(** C9 (the code departs from the specification): when [platform_get_irq] reports
    failure (a negative int), [probe] still returns 0. The negative value
    is stored in the unsigned field [vring0], so the test [vring0 < 0]
    never fires and the missing line is never reported; the wrapped-around
    number goes to [devm_request_irq], and an instance results exactly when
    that call accepts it. *)
Theorem probe_irq_failure_returns_zero
    (K : kernel_headers) (P : platform) (pdev : platform_device)
    (res : resource) (s : state) :
  devm_kzalloc_ok P = true ->
  platform_get_resource_byname P "vring0" = Some res ->
  - 2 ^ 31 <= platform_get_irq P < 0 ->
  fst (value (zynqmp_r5_remoteproc_probe K P pdev) s) = 0 /\
  exec (zynqmp_r5_remoteproc_probe K P pdev) s = s /\
  ~ In (EvPrintk KERN_ERR "unable to find IPI IRQ\n" [])
       (emitted (zynqmp_r5_remoteproc_probe K P pdev) s) /\
  forall pd,
    snd (value (zynqmp_r5_remoteproc_probe K P pdev) s) = Some pd ->
    vring0 pd = platform_get_irq P + 2 ^ 32 /\
    devm_request_irq P (vring0 pd) = 0.
Proof.
  intros Hk Hres Hirq.
  destruct (probe_yields K P pdev res Hk Hres s) as [[Hret Hinst] Hs].
  split; [exact Hret | split; [exact Hs | split]].
  - apply probe_never_reports_missing_irq.
  - intros pd Hpd. rewrite Hpd in Hinst.
    destruct Hinst as (_ & _ & Hv & Hq & _).
    split; [ | exact Hq].
    rewrite Hv. unfold u32.
    rewrite <- (Z.mod_add _ 1) by lia.
    apply Z.mod_small. lia.
Qed.

Lemma probe_irq_failure_returns_zero_witness :
  value (zynqmp_r5_remoteproc_probe kernel_arm64
           (sample_platform "lock-step" "direct" "tcm" (-6)) 7) sample_state =
    (0, None) /\
  ~ In (EvPrintk KERN_ERR "unable to find IPI IRQ\n" [])
       (emitted (zynqmp_r5_remoteproc_probe kernel_arm64
                   (sample_platform "lock-step" "direct" "tcm" (-6)) 7) sample_state) /\
  In (EvPrintk KERN_ERR "IRQ %d already allocated\n" [PInt 4294967290])
     (emitted (zynqmp_r5_remoteproc_probe kernel_arm64
                 (sample_platform "lock-step" "direct" "tcm" (-6)) 7) sample_state).
Proof.
  destruct (probe_irq_failure_returns_zero kernel_arm64
              (sample_platform "lock-step" "direct" "tcm" (-6)) 7
              (mkResource 0x3ed00000 0x3ed03fff) sample_state)
    as (_ & _ & Hsilent & _);
    [reflexivity | reflexivity | cbn; lia | ].
  split; [reflexivity | split; [exact Hsilent | ]].
  cbn. repeat first [left; reflexivity | right].
Defined.

(** * Further properties of the driver *)

(** ** The complete register effect of start and stop *)

Lemma same_registers_bits (r1 r2 : regfile) :
  (forall w reg n, Z.testbit (rd r1 w reg) n = Z.testbit (rd r2 w reg) n) ->
  same_registers r1 r2.
Proof. intros H w reg. apply Z.bits_inj'. intros n _. apply H. Qed.

(** X1: from any register state, [start] on a direct instance leaves the
    core out of reset and not halted, the boot-source bit equal to "boot
    memory is OCM", the shared mode bits programmed from the instance's own
    core configuration, the notification enable register equal to the
    destination mask and the disable and status registers equal to the
    all-sources mask. *)
Theorem start_programs_the_instance
    (pdev : platform_device) (pd : zynqmp_r5_rproc_pdata) (s : state) :
  bound_to HW pd ->
  0 <= rpu_id pd < MAX_INSTANCES ->
  let r := regs (exec (zynqmp_r5_rproc_start pdev pd) s) in
  running pd r = true /\
  Z.testbit (rd r rpu_base (cfg_offset (rpu_id pd))) 2 = is_ocm (bootmem pd) /\
  Z.testbit (rd r rpu_base RPU_GLBL_CNTL_OFFSET) 3 = is_split (rpu_mode pd) /\
  Z.testbit (rd r rpu_base RPU_GLBL_CNTL_OFFSET) 4 = negb (is_split (rpu_mode pd)) /\
  Z.testbit (rd r rpu_base RPU_GLBL_CNTL_OFFSET) 6 = negb (is_split (rpu_mode pd)) /\
  rd r ipi_base IER_OFFSET = u32 (ipi_dest_mask pd) /\
  rd r ipi_base IDR_OFFSET = IPI_ALL_MASK /\
  rd r ipi_base ISR_OFFSET = IPI_ALL_MASK.
Proof.
  intros Hb Hid. cbv zeta.
  pose proof (fun w reg n => start_effect_bits pdev pd s w reg n Hb Hid) as E.
  assert (Hcfg : cfg_offset (rpu_id pd) <> RPU_GLBL_CNTL_OFFSET)
    by (destruct (cfg_offset_cases _ Hid) as [[_ ->] | [_ ->]]; discriminate).
  unfold running, in_reset, halted.
  rewrite !E, !Z.eqb_refl. cbn [andb orb negb].
  repeat split.
  - destruct (Z.eqb_spec RPU_GLBL_CNTL_OFFSET (cfg_offset (rpu_id pd)));
      [congruence | reflexivity].
  - destruct (Z.eqb_spec RPU_GLBL_CNTL_OFFSET (cfg_offset (rpu_id pd)));
      [congruence | reflexivity].
  - destruct (Z.eqb_spec RPU_GLBL_CNTL_OFFSET (cfg_offset (rpu_id pd)));
      [congruence | reflexivity].
  - apply Z.bits_inj'. intros n _. rewrite E, Z.eqb_refl. reflexivity.
  - apply Z.bits_inj'. intros n _. rewrite E. reflexivity.
  - apply Z.bits_inj'. intros n _. rewrite E. reflexivity.
Qed.

Lemma start_programs_the_instance_witness :
  running sample_pdata
    (regs (exec (zynqmp_r5_rproc_start 7 sample_pdata) sample_state)) = true /\
  rd (regs (exec (zynqmp_r5_rproc_start 7 sample_pdata) sample_state))
     ipi_base IER_OFFSET = 0x100.
Proof.
  assert (Hb : bound_to HW sample_pdata) by (split; reflexivity).
  assert (Hid : 0 <= rpu_id sample_pdata < MAX_INSTANCES)
    by (cbn; unfold MAX_INSTANCES; lia).
  destruct (start_programs_the_instance 7 sample_pdata sample_state Hb Hid)
    as (Hrun & _ & _ & _ & _ & Hier & _).
  split; [exact Hrun | exact Hier].
Defined.

(** X2: from any register state, [stop] on a direct instance leaves the
    core in reset and halted; it changes nothing but the core's reset bit,
    its halt bit and the notification disable and status registers, so the
    boot-source bit, the shared mode register and the notification enable
    register keep their values; and a second [stop] changes no register. *)
Theorem stop_from_any_state
    (pdev : platform_device) (pd : zynqmp_r5_rproc_pdata) (s : state) :
  bound_to HW pd ->
  0 <= rpu_id pd < MAX_INSTANCES ->
  let s1 := exec (zynqmp_r5_rproc_stop pdev pd) s in
  stopped pd (regs s1) = true /\
  (forall n, n <> 0 ->
     Z.testbit (rd (regs s1) rpu_base (cfg_offset (rpu_id pd))) n =
     Z.testbit (rd (regs s) rpu_base (cfg_offset (rpu_id pd))) n) /\
  (forall n, n <> rpu_id pd ->
     Z.testbit (rd (regs s1) crl_apb_base RST_LPD_TOP_OFFSET) n =
     Z.testbit (rd (regs s) crl_apb_base RST_LPD_TOP_OFFSET) n) /\
  (forall w reg,
     (w, reg) <> (rpu_base, cfg_offset (rpu_id pd)) ->
     (w, reg) <> (crl_apb_base, RST_LPD_TOP_OFFSET) ->
     (w, reg) <> (ipi_base, ISR_OFFSET) ->
     (w, reg) <> (ipi_base, IDR_OFFSET) ->
     rd (regs s1) w reg = rd (regs s) w reg) /\
  same_registers (regs (exec (zynqmp_r5_rproc_stop pdev pd) s1)) (regs s1).
Proof.
  intros Hb Hid. cbv zeta.
  pose proof (fun s' w reg n => stop_effect_bits pdev pd s' w reg n Hb Hid) as E.
  split; [ | split; [ | split; [ | split]]].
  - unfold stopped, in_reset, halted. rewrite !E, !Z.eqb_refl. reflexivity.
  - intros n Hn. rewrite E, Z.eqb_refl.
    destruct (Z.eqb_spec n 0); [contradiction | reflexivity].
  - intros n Hn. rewrite E, Z.eqb_refl.
    destruct (Z.eqb_spec n (rpu_id pd)); [contradiction | reflexivity].
  - intros w reg H1 H2 H3 H4. apply Z.bits_inj'. intros n _. rewrite E.
    destruct w.
    + destruct (Z.eqb_spec reg (cfg_offset (rpu_id pd))); [congruence | reflexivity].
    + destruct (Z.eqb_spec reg RST_LPD_TOP_OFFSET); [congruence | reflexivity].
    + destruct (Z.eqb_spec reg ISR_OFFSET); [congruence | ].
      destruct (Z.eqb_spec reg IDR_OFFSET); [congruence | reflexivity].
  - apply same_registers_bits. intros w reg n. rewrite (E (exec _ s)), (E s).
    destruct w.
    + destruct ((reg =? cfg_offset (rpu_id pd)) && (n =? 0)); reflexivity.
    + destruct ((reg =? RST_LPD_TOP_OFFSET) && (n =? rpu_id pd)); reflexivity.
    + destruct ((reg =? ISR_OFFSET) || (reg =? IDR_OFFSET)); reflexivity.
Qed.

Lemma stop_from_any_state_witness :
  stopped sample_pdata
    (regs (exec (zynqmp_r5_rproc_stop 7 sample_pdata) sample_state)) = true /\
  same_registers
    (regs (exec (zynqmp_r5_rproc_stop 7 sample_pdata)
                (exec (zynqmp_r5_rproc_stop 7 sample_pdata) sample_state)))
    (regs (exec (zynqmp_r5_rproc_stop 7 sample_pdata) sample_state)).
Proof.
  assert (Hb : bound_to HW sample_pdata) by (split; reflexivity).
  assert (Hid : 0 <= rpu_id sample_pdata < MAX_INSTANCES)
    by (cbn; unfold MAX_INSTANCES; lia).
  destruct (stop_from_any_state 7 sample_pdata sample_state Hb Hid)
    as (Hstop & _ & _ & _ & Hsame).
  split; [exact Hstop | exact Hsame].
Defined.

(** X3: [start] and [stop] of one core leave the other core's reset bit
    and the other core's configuration register exactly as they were. *)
Theorem lifecycle_leaves_other_core_alone
    (pdev : platform_device) (pd : zynqmp_r5_rproc_pdata) (s : state) (other : Z) :
  bound_to HW pd ->
  0 <= rpu_id pd < MAX_INSTANCES ->
  0 <= other < MAX_INSTANCES ->
  other <> rpu_id pd ->
  let s1 := exec (zynqmp_r5_rproc_start pdev pd) s in
  let s2 := exec (zynqmp_r5_rproc_stop pdev pd) s in
  Z.testbit (rd (regs s1) crl_apb_base RST_LPD_TOP_OFFSET) other =
    Z.testbit (rd (regs s) crl_apb_base RST_LPD_TOP_OFFSET) other /\
  rd (regs s1) rpu_base (cfg_offset other) = rd (regs s) rpu_base (cfg_offset other) /\
  Z.testbit (rd (regs s2) crl_apb_base RST_LPD_TOP_OFFSET) other =
    Z.testbit (rd (regs s) crl_apb_base RST_LPD_TOP_OFFSET) other /\
  rd (regs s2) rpu_base (cfg_offset other) = rd (regs s) rpu_base (cfg_offset other).
Proof.
  intros Hb Hid Hother Hne. cbv zeta.
  pose proof (fun w reg n => start_effect_bits pdev pd s w reg n Hb Hid) as Es.
  pose proof (fun w reg n => stop_effect_bits pdev pd s w reg n Hb Hid) as Et.
  assert (Hoff : cfg_offset other <> cfg_offset (rpu_id pd) /\
                 cfg_offset other <> RPU_GLBL_CNTL_OFFSET).
  { destruct (cfg_offset_cases _ Hid) as [[E1 ->] | [E1 ->]];
      destruct (cfg_offset_cases _ Hother) as [[E2 ->] | [E2 ->]];
      split; try discriminate; congruence. }
  destruct Hoff as [Hoff1 Hoff2].
  repeat split.
  - rewrite Es, Z.eqb_refl.
    destruct (Z.eqb_spec other (rpu_id pd)); [contradiction | reflexivity].
  - apply Z.bits_inj'. intros n _. rewrite Es.
    destruct (Z.eqb_spec (cfg_offset other) (cfg_offset (rpu_id pd))); [contradiction | ].
    destruct (Z.eqb_spec (cfg_offset other) RPU_GLBL_CNTL_OFFSET); [contradiction | ].
    reflexivity.
  - rewrite Et, Z.eqb_refl.
    destruct (Z.eqb_spec other (rpu_id pd)); [contradiction | reflexivity].
  - apply Z.bits_inj'. intros n _. rewrite Et.
    destruct (Z.eqb_spec (cfg_offset other) (cfg_offset (rpu_id pd)));
      [contradiction | reflexivity].
Qed.

Lemma lifecycle_leaves_other_core_alone_witness :
  rd (regs (exec (zynqmp_r5_rproc_start 7 sample_pdata) sample_state))
     rpu_base (cfg_offset 1) =
  rd (regs sample_state) rpu_base (cfg_offset 1).
Proof.
  refine (proj1 (proj2
    (lifecycle_leaves_other_core_alone 7 sample_pdata sample_state 1 _ _ _ _))).
  - split; reflexivity.
  - cbn; unfold MAX_INSTANCES; lia.
  - unfold MAX_INSTANCES; lia.
  - discriminate.
Defined.

(** ** The callbacks on the placeholder backends *)

(** X4: on an instance bound to the secure-monitor-call or hypervisor-call
    variant, [start], [stop], [kick] and the interrupt handler leave every
    register as it was and make no register access at all; [start] and
    [stop] still return 0, and [start] still spends the 500 microsecond
    delay. *)
Theorem stub_lifecycle_touches_no_register
    (m : control_method) (pdev : platform_device) (pd : zynqmp_r5_rproc_pdata)
    (vqid irq : Z) (s : state) :
  m <> HW ->
  bound_to m pd ->
  (value (zynqmp_r5_rproc_start pdev pd) s = 0 /\
   regs (exec (zynqmp_r5_rproc_start pdev pd) s) = regs s /\
   existsb is_reg_access (emitted (zynqmp_r5_rproc_start pdev pd) s) = false /\
   In (EvUdelay 500) (emitted (zynqmp_r5_rproc_start pdev pd) s)) /\
  (value (zynqmp_r5_rproc_stop pdev pd) s = 0 /\
   exec (zynqmp_r5_rproc_stop pdev pd) s = s /\
   existsb is_reg_access (emitted (zynqmp_r5_rproc_stop pdev pd) s) = false) /\
  (exec (zynqmp_r5_rproc_kick pdev pd vqid) s = s /\
   existsb is_reg_access (emitted (zynqmp_r5_rproc_kick pdev pd vqid) s) = false) /\
  (exec (r5_remoteproc_interrupt irq pdev pd) s = s /\
   actions (emitted (r5_remoteproc_interrupt irq pdev pd) s) = [EvScheduleWork pdev]).
Proof.
  intros Hm Hb.
  unfold zynqmp_r5_rproc_start, zynqmp_r5_rproc_stop, zynqmp_r5_rproc_kick,
    r5_remoteproc_interrupt, ipi_init.
  rewrite init_work_choice.
  destruct m; cbn [bound_to] in Hb; destruct Hb as [-> ->]; try congruence;
    cbn [ipi_ops_at rpu_ops_at
         core_conf bootdev halt en_reset clear reset set_mask trigger
         rpu_smc_ops rpu_hvc_ops ipi_smc_ops ipi_hvc_ops];
    repeat split; try reflexivity;
    cbn; repeat first [left; reflexivity | right].
Qed.

Lemma stub_lifecycle_touches_no_register_witness :
  regs (exec (zynqmp_r5_rproc_start 8 sample_pdata_smc) sample_state) =
    regs sample_state /\
  exec (zynqmp_r5_rproc_stop 8 sample_pdata_smc) sample_state = sample_state.
Proof.
  destruct (stub_lifecycle_touches_no_register SMC 8 sample_pdata_smc 0 80 sample_state)
    as ((_ & Hstart & _) & (_ & Hstop & _) & _).
  - discriminate.
  - split; reflexivity.
  - split; [exact Hstart | exact Hstop].
Defined.

(** ** Kick and interrupt on the direct backend *)

Lemma hw_one_write_regs (r : regfile) (reg v : Z) w' reg' :
  rd (wr r ipi_base reg v) w' reg' =
  match w' with
  | ipi_base => if reg' =? reg then u32 v else rd r w' reg'
  | _ => rd r w' reg'
  end.
Proof.
  rewrite rd_wr. destruct w'; cbn [window_eqb andb]; try reflexivity.
  rewrite (Z.eqb_sym reg reg'). reflexivity.
Qed.

(** X5: [kick] on a direct instance writes the destination mask to the
    trigger register and changes no other register, the registry or the
    work bindings; the queue index it is given only shows in the log line:
    the state reached and the effects after the first log line are the same
    for any two queue indices. *)
Theorem kick_triggers_destination
    (pdev : platform_device) (pd : zynqmp_r5_rproc_pdata) (vqid vqid' : Z) (s : state) :
  bound_to HW pd ->
  let s1 := exec (zynqmp_r5_rproc_kick pdev pd vqid) s in
  (forall w reg,
     rd (regs s1) w reg =
     match w with
     | ipi_base => if reg =? TRIG_OFFSET then u32 (ipi_dest_mask pd)
                   else rd (regs s) w reg
     | _ => rd (regs s) w reg
     end) /\
  remoteprocdev s1 = remoteprocdev s /\
  workqueue s1 = workqueue s /\
  actions (emitted (zynqmp_r5_rproc_kick pdev pd vqid) s) =
    [EvWrite ipi_base TRIG_OFFSET (u32 (ipi_dest_mask pd))] /\
  exec (zynqmp_r5_rproc_kick pdev pd vqid') s = s1 /\
  tl (emitted (zynqmp_r5_rproc_kick pdev pd vqid') s) =
    tl (emitted (zynqmp_r5_rproc_kick pdev pd vqid) s).
Proof.
  intros [Hi _]. cbv zeta. unfold zynqmp_r5_rproc_kick. rewrite Hi.
  cbn [ipi_ops_at trigger ipi_hw_ops].
  repeat split.
  intros w reg.
  change (regs (exec (dev_dbg "KICK Firmware to start send messages vqid %d\n" [PInt vqid];;
                      hw_trigger_ipi pd) s))
    with (wr (regs s) ipi_base TRIG_OFFSET (ipi_dest_mask pd)).
  apply hw_one_write_regs.
Qed.

Lemma kick_triggers_destination_witness :
  rd (regs (exec (zynqmp_r5_rproc_kick 7 sample_pdata 0) sample_state))
     ipi_base TRIG_OFFSET = 0x100 /\
  exec (zynqmp_r5_rproc_kick 7 sample_pdata 5) sample_state =
    exec (zynqmp_r5_rproc_kick 7 sample_pdata 0) sample_state.
Proof.
  destruct (kick_triggers_destination 7 sample_pdata 0 5 sample_state)
    as (Hrd & _ & _ & _ & Hsame & _).
  - split; reflexivity.
  - split; [exact (Hrd ipi_base TRIG_OFFSET) | exact Hsame].
Defined.

(** X6: the interrupt handler of a direct instance schedules the work item
    of its own device and then acknowledges the interrupt by writing the
    destination mask to the status register; these are its only effects
    besides log lines, and no other register, the registry or the work
    bindings change. *)
Theorem interrupt_schedules_then_acknowledges
    (irq : Z) (pdev : platform_device) (pd : zynqmp_r5_rproc_pdata) (s : state) :
  bound_to HW pd ->
  let s1 := exec (r5_remoteproc_interrupt irq pdev pd) s in
  actions (emitted (r5_remoteproc_interrupt irq pdev pd) s) =
    [EvScheduleWork pdev; EvWrite ipi_base ISR_OFFSET (u32 (ipi_dest_mask pd))] /\
  (forall w reg,
     rd (regs s1) w reg =
     match w with
     | ipi_base => if reg =? ISR_OFFSET then u32 (ipi_dest_mask pd)
                   else rd (regs s) w reg
     | _ => rd (regs s) w reg
     end) /\
  remoteprocdev s1 = remoteprocdev s /\
  workqueue s1 = workqueue s.
Proof.
  intros [Hi _]. cbv zeta. unfold r5_remoteproc_interrupt. rewrite Hi.
  cbn [ipi_ops_at clear ipi_hw_ops].
  repeat split.
  intros w reg.
  change (regs (exec (dev_dbg "KICK Linux because of pending message(irq%d)\n" [PInt irq];;
                      schedule_work pdev;;
                      hw_clear_ipi pd;;
                      dev_dbg "KICK Linux handled\n" []) s))
    with (wr (regs s) ipi_base ISR_OFFSET (ipi_dest_mask pd)).
  apply hw_one_write_regs.
Qed.

Lemma interrupt_schedules_then_acknowledges_witness :
  actions (emitted (r5_remoteproc_interrupt 79 7 sample_pdata) sample_state) =
    [EvScheduleWork 7; EvWrite ipi_base ISR_OFFSET 0x100].
Proof.
  refine (proj1 (interrupt_schedules_then_acknowledges 79 7 sample_pdata sample_state _)).
  split; reflexivity.
Defined.

(** ** The deferred task *)

(** What [start] does to the registry and the work bindings, whatever the
    backend. *)
Lemma start_driver_state pdev pd s :
  0 <= rpu_id pd ->
  remoteprocdev (exec (zynqmp_r5_rproc_start pdev pd) s) =
    array_store (remoteprocdev s) (Z.to_nat (rpu_id pd)) (Some pdev) /\
  forall d,
    workqueue (exec (zynqmp_r5_rproc_start pdev pd) s) d =
    if d =? pdev then Some (work_func_for (rpu_id pd)) else workqueue s d.
Proof.
  intros Hid.
  unfold zynqmp_r5_rproc_start, ipi_init, work_func_for.
  rewrite init_work_choice. run_steps.
  destruct (ipi_ops pd), (rpu_ops pd); split; reflexivity.
Qed.

Lemma array_store_length {A} (l : list A) i x :
  List.length (array_store l i x) = List.length l.
Proof.
  revert i; induction l as [ | h t IH]; intros i; [reflexivity | ].
  destruct i; cbn; [reflexivity | rewrite IH; reflexivity].
Qed.

Lemma handle_event_run IRQ_NONE (vq : Z -> Z -> M Z) local s :
  value (handle_event IRQ_NONE vq local) s = tt /\
  exec (handle_event IRQ_NONE vq local) s = exec (vq (rproc local) 0) s /\
  emitted (handle_event IRQ_NONE vq local) s =
    EvFlushCacheAll
    :: emitted (vq (rproc local) 0) s
    ++ (if value (vq (rproc local) 0) s =? IRQ_NONE
        then [EvPrintk KERN_DEBUG "no message found in vqid 0\n" []]
        else []).
Proof.
  unfold handle_event. run_steps.
  destruct (value (vq (rproc local) 0) s =? IRQ_NONE);
    repeat split; reflexivity.
Qed.

(** The work function of a core id, run in a state whose registry slot of
    that id holds a device with an instance attached. *)
Lemma run_work_of_slot IRQ_NONE vq drv id pdev local s :
  0 <= id < MAX_INSTANCES ->
  nth_error (remoteprocdev s) (Z.to_nat id) = Some (Some pdev) ->
  drv pdev = Some local ->
  run_work IRQ_NONE vq drv (work_func_for id) s =
  (x <- handle_event IRQ_NONE vq local ;; ret (Some x)) s.
Proof.
  unfold MAX_INSTANCES. intros Hid Hslot Hdrv.
  assert (id = 0 \/ id = 1) as [-> | ->] by lia.
  - change (Z.to_nat 0) with 0%nat in Hslot.
    cbn [work_func_for Z.eqb run_work].
    unfold handle_event0_body, handle_event_of_slot.
    rewrite Hslot, Hdrv. reflexivity.
  - change (Z.to_nat 1) with 1%nat in Hslot.
    cbn [work_func_for Z.eqb run_work].
    unfold handle_event1_body, handle_event_of_slot.
    rewrite Hslot, Hdrv. reflexivity.
Qed.

Lemma run_work_of_slot_run IRQ_NONE vq drv id pdev local s :
  0 <= id < MAX_INSTANCES ->
  nth_error (remoteprocdev s) (Z.to_nat id) = Some (Some pdev) ->
  drv pdev = Some local ->
  value (run_work IRQ_NONE vq drv (work_func_for id)) s = Some tt /\
  exec (run_work IRQ_NONE vq drv (work_func_for id)) s = exec (vq (rproc local) 0) s /\
  emitted (run_work IRQ_NONE vq drv (work_func_for id)) s =
    EvFlushCacheAll
    :: emitted (vq (rproc local) 0) s
    ++ (if value (vq (rproc local) 0) s =? IRQ_NONE
        then [EvPrintk KERN_DEBUG "no message found in vqid 0\n" []]
        else []).
Proof.
  intros Hid Hslot Hdrv.
  pose proof (run_work_of_slot IRQ_NONE vq drv id pdev local s Hid Hslot Hdrv) as E.
  destruct (handle_event_run IRQ_NONE vq local s) as (Hv & He & Ht).
  rewrite <- He, <- Ht.
  unfold value, exec, emitted in *. rewrite E. unfold bind, ret.
  destruct (handle_event IRQ_NONE vq local s) as [[[] s'] t]; cbn [fst snd].
  rewrite app_nil_r. repeat split.
Qed.

(** X7: the work item [start] binds resolves the instance that was
    started. After [start] of a device (any backend, core id 0 or 1) whose
    driver data is the instance, the device's work item is bound to the
    handler of its core id, and running that handler does not dereference
    a null pointer: it flushes the cache, then runs the queue routine on
    this instance's rproc handle and queue 0, and logs a debug line exactly
    when the routine answers IRQ_NONE. *)
Theorem started_work_services_its_instance
    (IRQ_NONE : Z) (vq : Z -> Z -> M Z)
    (drv : platform_device -> option zynqmp_r5_rproc_pdata)
    (pdev : platform_device) (pd : zynqmp_r5_rproc_pdata) (s : state) :
  0 <= rpu_id pd < MAX_INSTANCES ->
  List.length (remoteprocdev s) = Z.to_nat MAX_INSTANCES ->
  drv pdev = Some pd ->
  let s1 := exec (zynqmp_r5_rproc_start pdev pd) s in
  let task := run_work IRQ_NONE vq drv (work_func_for (rpu_id pd)) in
  workqueue s1 pdev = Some (work_func_for (rpu_id pd)) /\
  value task s1 = Some tt /\
  exec task s1 = exec (vq (rproc pd) 0) s1 /\
  emitted task s1 =
    EvFlushCacheAll
    :: emitted (vq (rproc pd) 0) s1
    ++ (if value (vq (rproc pd) 0) s1 =? IRQ_NONE
        then [EvPrintk KERN_DEBUG "no message found in vqid 0\n" []]
        else []).
Proof.
  intros Hid Hlen Hdrv. cbv zeta.
  destruct (start_driver_state pdev pd s) as [Hreg Hwq]; [lia | ].
  assert (Hslot : nth_error (remoteprocdev (exec (zynqmp_r5_rproc_start pdev pd) s))
                            (Z.to_nat (rpu_id pd)) = Some (Some pdev)).
  { rewrite Hreg. apply array_store_nth. rewrite Hlen.
    unfold MAX_INSTANCES in *. lia. }
  split; [rewrite Hwq, Z.eqb_refl; reflexivity | ].
  exact (run_work_of_slot_run IRQ_NONE vq drv _ pdev pd _ Hid Hslot Hdrv).
Qed.

Lemma started_work_services_its_instance_witness :
  value (run_work 0 sample_vq_interrupt sample_drvdata handle_event0)
        (exec (zynqmp_r5_rproc_start 7 sample_pdata) sample_state) = Some tt.
Proof.
  refine (proj1 (proj2
    (started_work_services_its_instance 0 sample_vq_interrupt sample_drvdata
       7 sample_pdata sample_state _ _ _))).
  - cbn; unfold MAX_INSTANCES; lia.
  - reflexivity.
  - reflexivity.
Defined.

(** X8: the registry has one slot per core id, and [start] replaces it.
    When two devices with the same core id are started one after the other,
    the work item of the first stays bound to the handler of that id, the
    slot holds the second device, and the handler, whoever scheduled it,
    runs the queue routine on the second device's rproc handle. *)
Theorem last_started_device_owns_the_slot
    (IRQ_NONE : Z) (vq : Z -> Z -> M Z)
    (drv : platform_device -> option zynqmp_r5_rproc_pdata)
    (pdevA pdevB : platform_device) (pdA pdB : zynqmp_r5_rproc_pdata) (s : state) :
  0 <= rpu_id pdB < MAX_INSTANCES ->
  rpu_id pdA = rpu_id pdB ->
  pdevA <> pdevB ->
  List.length (remoteprocdev s) = Z.to_nat MAX_INSTANCES ->
  drv pdevB = Some pdB ->
  let s2 := exec (zynqmp_r5_rproc_start pdevB pdB)
                 (exec (zynqmp_r5_rproc_start pdevA pdA) s) in
  let task := run_work IRQ_NONE vq drv (work_func_for (rpu_id pdA)) in
  workqueue s2 pdevA = Some (work_func_for (rpu_id pdA)) /\
  nth_error (remoteprocdev s2) (Z.to_nat (rpu_id pdA)) = Some (Some pdevB) /\
  value task s2 = Some tt /\
  exec task s2 = exec (vq (rproc pdB) 0) s2 /\
  emitted task s2 =
    EvFlushCacheAll
    :: emitted (vq (rproc pdB) 0) s2
    ++ (if value (vq (rproc pdB) 0) s2 =? IRQ_NONE
        then [EvPrintk KERN_DEBUG "no message found in vqid 0\n" []]
        else []).
Proof.
  intros Hid Hsame Hne Hlen Hdrv. cbv zeta.
  destruct (start_driver_state pdevA pdA s) as [HregA HwqA]; [lia | ].
  destruct (start_driver_state pdevB pdB (exec (zynqmp_r5_rproc_start pdevA pdA) s))
    as [HregB HwqB]; [lia | ].
  assert (Hslot : nth_error
                    (remoteprocdev (exec (zynqmp_r5_rproc_start pdevB pdB)
                                         (exec (zynqmp_r5_rproc_start pdevA pdA) s)))
                    (Z.to_nat (rpu_id pdA)) = Some (Some pdevB)).
  { rewrite HregB, Hsame. apply array_store_nth.
    rewrite HregA, array_store_length, Hlen. unfold MAX_INSTANCES in *. lia. }
  split; [ | split; [exact Hslot | ]].
  - rewrite HwqB, HwqA, Z.eqb_refl.
    destruct (Z.eqb_spec pdevA pdevB); [contradiction | reflexivity].
  - rewrite Hsame in *.
    exact (run_work_of_slot_run IRQ_NONE vq drv _ pdevB pdB _ Hid Hslot Hdrv).
Qed.

Lemma last_started_device_owns_the_slot_witness :
  nth_error
    (remoteprocdev (exec (zynqmp_r5_rproc_start 7 sample_pdata)
                         (exec (zynqmp_r5_rproc_start 9 sample_pdata) sample_state)))
    (Z.to_nat (rpu_id sample_pdata)) = Some (Some 7) /\
  workqueue (exec (zynqmp_r5_rproc_start 7 sample_pdata)
                  (exec (zynqmp_r5_rproc_start 9 sample_pdata) sample_state)) 9 =
    Some handle_event0.
Proof.
  destruct (last_started_device_owns_the_slot 0 sample_vq_interrupt sample_drvdata
              9 7 sample_pdata sample_pdata sample_state)
    as (Hwq & Hslot & _).
  - cbn; unfold MAX_INSTANCES; lia.
  - reflexivity.
  - discriminate.
  - reflexivity.
  - reflexivity.
  - split; [exact Hslot | exact Hwq].
Defined.

(** ** How the direct operations compose *)

(** Case analysis on the window and on every integer comparison. *)
Ltac bit_cases :=
  unfold at_bit;
  match goal with w : window |- _ => destruct w end;
  cbn [window_eqb andb];
  eqb_cases.

(** X9: the direct read-modify-write operations compose as independent
    bit updates. [setHalt] and [setBootDevice], which share a register,
    commute; of two [setHalt] calls the later one decides; the resets of two
    different cores commute on the shared reset register; and
    [configureCoreMode] of a second instance overrides the mode the first
    one programmed. Registers are compared as [readl] sees them. *)
Theorem direct_operations_compose
    (pd pd' : zynqmp_r5_rproc_pdata) (b b' : bool) (s : state) :
  0 <= rpu_id pd < MAX_INSTANCES ->
  0 <= rpu_id pd' < MAX_INSTANCES ->
  same_registers (regs (exec (hw_r5_boot_dev pd) (exec (hw_r5_halt pd b) s)))
                 (regs (exec (hw_r5_halt pd b) (exec (hw_r5_boot_dev pd) s))) /\
  same_registers (regs (exec (hw_r5_halt pd b') (exec (hw_r5_halt pd b) s)))
                 (regs (exec (hw_r5_halt pd b') s)) /\
  (rpu_id pd <> rpu_id pd' ->
   same_registers (regs (exec (hw_r5_reset pd' b') (exec (hw_r5_reset pd b) s)))
                  (regs (exec (hw_r5_reset pd b) (exec (hw_r5_reset pd' b') s)))) /\
  same_registers (regs (exec (hw_r5_core_config pd') (exec (hw_r5_core_config pd) s)))
                 (regs (exec (hw_r5_core_config pd') s)).
Proof.
  intros Hid Hid'. unfold MAX_INSTANCES in *.
  split; [ | split; [ | split]].
  - apply same_registers_bits. intros w reg n.
    rewrite !hw_r5_boot_dev_bits, !hw_r5_halt_bits, !hw_r5_boot_dev_bits.
    bit_cases.
  - apply same_registers_bits. intros w reg n.
    rewrite !hw_r5_halt_bits.
    bit_cases.
  - intros Hne. apply same_registers_bits. intros w reg n.
    rewrite !hw_r5_reset_bits by lia.
    bit_cases.
  - apply same_registers_bits. intros w reg n.
    rewrite !hw_r5_core_config_bits.
    destruct (window_eqb rpu_base w && (RPU_GLBL_CNTL_OFFSET =? reg)
              && ((n =? 3) || (n =? 4) || (n =? 6))); reflexivity.
Qed.

Lemma direct_operations_compose_witness :
  same_registers
    (regs (exec (hw_r5_boot_dev sample_pdata) (exec (hw_r5_halt sample_pdata true) sample_state)))
    (regs (exec (hw_r5_halt sample_pdata true) (exec (hw_r5_boot_dev sample_pdata) sample_state))).
Proof.
  refine (proj1 (direct_operations_compose sample_pdata sample_pdata true true
                   sample_state _ _));
    cbn; unfold MAX_INSTANCES; lia.
Defined.

(** ** Address translation keeps the layout of the buffer *)

(** X10: inside the buffer range of a queue the address translation is a
    shift: it maps the queue's host virtual base to the mapped physical
    base, keeps the distance and the order of any two addresses, and lands
    inside the image of the range. *)
Theorem kva_translation_is_a_shift
    (K : kernel_headers) (va1 va2 : Z) (rvring : rproc_vring.t) (size : Z) :
  0 <= rproc_vring.va rvring ->
  rproc_vring.va rvring + size <= 2 ^ 64 ->
  0 <= phys_to_virt K (rproc_vring.dma rvring) ->
  phys_to_virt K (rproc_vring.dma rvring) + size <= 2 ^ 64 ->
  rproc_vring.va rvring <= va1 < rproc_vring.va rvring + size ->
  rproc_vring.va rvring <= va2 < rproc_vring.va rvring + size ->
  zynqmp_r5_kva_to_guest_addr_kva K (rproc_vring.va rvring) rvring =
    phys_to_virt K (rproc_vring.dma rvring) /\
  zynqmp_r5_kva_to_guest_addr_kva K va2 rvring
    - zynqmp_r5_kva_to_guest_addr_kva K va1 rvring = va2 - va1 /\
  (va1 < va2 <->
   zynqmp_r5_kva_to_guest_addr_kva K va1 rvring
     < zynqmp_r5_kva_to_guest_addr_kva K va2 rvring) /\
  phys_to_virt K (rproc_vring.dma rvring)
    <= zynqmp_r5_kva_to_guest_addr_kva K va1 rvring
    < phys_to_virt K (rproc_vring.dma rvring) + size.
Proof.
  intros Hva Hvahi Hpa Hpahi H1 H2.
  unfold zynqmp_r5_kva_to_guest_addr_kva, u64.
  rewrite !Z.mod_small by lia.
  repeat split; lia.
Qed.

Lemma kva_translation_is_a_shift_witness :
  zynqmp_r5_kva_to_guest_addr_kva kernel_arm64 0xffffff8008000100 sample_rvring
    - zynqmp_r5_kva_to_guest_addr_kva kernel_arm64 0xffffff8008000010 sample_rvring
  = 0xf0.
Proof.
  refine (proj1 (proj2
    (kva_translation_is_a_shift kernel_arm64 0xffffff8008000010 0xffffff8008000100
       sample_rvring 0x4000 _ _ _ _ _ _))); cbn; lia.
Defined.

(** ** More about instance construction *)

Lemma core_conf_parse_none (P : platform) :
  let prop := match of_get_property P "core_conf" with
              | Some p => p
              | None => "lock-step"
              end in
  (if (prop =? "split0")%string then Some (SPLIT, 0)
   else if (prop =? "split1")%string then Some (SPLIT, 1)
   else if (prop =? "lock-step")%string then Some (LOCK_STEP, 0)
   else None) = None ->
  core_conf_known P = false.
Proof.
  cbv zeta. unfold core_conf_known.
  destruct (of_get_property P "core_conf") as [p | ]; [ | discriminate].
  destruct (p =? "split0")%string; [discriminate | ].
  destruct (p =? "split1")%string; [discriminate | ].
  destruct (p =? "lock-step")%string; [discriminate | reflexivity].
Qed.

Lemma method_parse_none (P : platform) :
  let prop := match of_get_property P "method" with
              | Some p => p
              | None => "smc"
              end in
  (if (prop =? "direct")%string then Some (HW, addr_ipi_hw_ops, addr_rpu_hw_ops)
   else if (prop =? "hvc")%string then Some (HVC, addr_ipi_hvc_ops, addr_rpu_hvc_ops)
   else if (prop =? "smc")%string then Some (SMC, addr_ipi_smc_ops, addr_rpu_smc_ops)
   else None) = None ->
  method_known P = false.
Proof.
  cbv zeta. unfold method_known.
  destruct (of_get_property P "method") as [p | ]; [ | discriminate].
  destruct (p =? "direct")%string; [discriminate | ].
  destruct (p =? "hvc")%string; [discriminate | ].
  destruct (p =? "smc")%string; [discriminate | reflexivity].
Qed.

Lemma bootmem_parse_none (P : platform) :
  let prop := match of_get_property P "bootmem" with
              | Some p => p
              | None => "tcm"
              end in
  (if (prop =? "tcm")%string then Some TCM
   else if (prop =? "ocm")%string then Some OCM
   else None) = None ->
  bootmem_known P = false.
Proof.
  cbv zeta. unfold bootmem_known.
  destruct (of_get_property P "bootmem") as [p | ]; [ | discriminate].
  destruct (p =? "tcm")%string; [discriminate | ].
  destruct (p =? "ocm")%string; [discriminate | reflexivity].
Qed.

Lemma method_parse_direct (P : platform)
    (m : control_method) (i : ipi_ops_ptr) (r : rpu_ops_ptr) :
  let prop := match of_get_property P "method" with
              | Some p => p
              | None => "smc"
              end in
  (if (prop =? "direct")%string then Some (HW, addr_ipi_hw_ops, addr_rpu_hw_ops)
   else if (prop =? "hvc")%string then Some (HVC, addr_ipi_hvc_ops, addr_rpu_hvc_ops)
   else if (prop =? "smc")%string then Some (SMC, addr_ipi_smc_ops, addr_rpu_smc_ops)
   else None) = Some (m, i, r) ->
  method_is_direct P = match m with HW => true | _ => false end.
Proof.
  cbv zeta. unfold method_is_direct.
  destruct (of_get_property P "method") as [p | ].
  - destruct (p =? "direct")%string; [intros [= <- <- <-]; reflexivity | ].
    destruct (p =? "hvc")%string; [intros [= <- <- <-]; reflexivity | ].
    destruct (p =? "smc")%string; [intros [= <- <- <-]; reflexivity | discriminate].
  - cbn. intros [= <- <- <-]. reflexivity.
Qed.

(** Bringing the facts collected on a path through [probe] into the form
    in which the conditions of construction are stated. *)
Ltac path_facts K P :=
  repeat match goal with
         | H : negb _ = false |- _ => apply negb_false_iff in H
         | H : negb _ = true |- _ => apply negb_true_iff in H
         | H : _ = Some (_, _, _) |- _ =>
             pose proof (method_parse_direct P _ _ _ H);
             apply method_parse_known in H as [? _]
         | H : _ = Some (_, _) |- _ => apply core_conf_parse_known in H as [? _]
         | H : _ = Some ?b |- _ =>
             match type of b with rpu_bootmem => apply bootmem_parse_known in H end
         | H : _ = None |- _ =>
             first [ apply core_conf_parse_none in H
                   | apply method_parse_none in H
                   | apply bootmem_parse_none in H
                   | exfalso; exact (firmware_name_present _ _ H) ]
         | H : (u32 _ <? 0) = true |- _ =>
             rewrite u32_never_negative in H; discriminate
         end.

(** X11: [probe] constructs an instance exactly under these conditions:
    the instance memory and the vring0 resource are available, the DMA
    declaration reports the IO flag and the coherent mask is accepted, the
    three enumeration strings are recognized (or absent), the three
    register windows map when the method is direct, [devm_request_irq]
    accepts the interrupt number as stored in the unsigned field, and the
    rproc is allocated and added. The answer of [platform_get_irq] is not
    among the conditions. *)
Theorem probe_builds_iff
    (K : kernel_headers) (P : platform) (pdev : platform_device) (s : state) :
  is_built (value (zynqmp_r5_remoteproc_probe K P pdev) s) = probe_ok K P.
Proof.
  revert s.
  cut (yields (zynqmp_r5_remoteproc_probe K P pdev)
              (fun r => is_built r = probe_ok K P)).
  { intros H s. apply H. }
  unfold zynqmp_r5_remoteproc_probe, rproc_fault, dma_mask_fault, err_exit,
    dev_err, pr_err, dev_warn, dev_info, dev_dbg, pr_debug.
  cbv zeta beta.
  repeat probe_step.
  all: unfold is_built, probe_ok; cbn [snd].
  all: path_facts K P.
  all: repeat match goal with
              | H : ?l = _ |- context [?l] => rewrite H
              end.
  all: cbn [andb negb ioremap_ok]; try reflexivity.
Qed.

(** X12: the value [probe] returns is -ENOMEM when the instance memory
    cannot be allocated, -ENXIO when the vring0 resource is missing, and 0
    in every other case, whether or not an instance was constructed; and
    [probe] never changes the registers, the registry or the work
    bindings. *)
Theorem probe_return_value
    (K : kernel_headers) (P : platform) (pdev : platform_device) (s : state) :
  fst (value (zynqmp_r5_remoteproc_probe K P pdev) s) =
    (if devm_kzalloc_ok P
     then match platform_get_resource_byname P "vring0" with
          | Some _ => 0
          | None => - ENXIO K
          end
     else - ENOMEM K) /\
  exec (zynqmp_r5_remoteproc_probe K P pdev) s = s.
Proof.
  destruct (devm_kzalloc_ok P) eqn:Hk.
  - destruct (platform_get_resource_byname P "vring0") as [res | ] eqn:Hres.
    + destruct (probe_yields K P pdev res Hk Hres s) as [[Hret _] Hs].
      split; [exact Hret | exact Hs].
    + unfold zynqmp_r5_remoteproc_probe. rewrite Hk, Hres. split; reflexivity.
  - unfold zynqmp_r5_remoteproc_probe. rewrite Hk. split; reflexivity.
Qed.

Lemma emits_only_ret {A} (ok : event -> bool) (a : A) : emits_only ok (ret a).
Proof. intros s; reflexivity. Qed.

Lemma emits_only_emit (ok : event -> bool) (e : event) :
  ok e = true -> emits_only ok (emit e).
Proof. intros H s; cbn. rewrite H. reflexivity. Qed.

Lemma emits_only_bind {A B} (ok : event -> bool) (m : M A) (k : A -> M B) :
  emits_only ok m ->
  (forall a, emits_only ok (k a)) ->
  emits_only ok (bind m k).
Proof.
  intros Hm Hk s. rewrite emitted_bind, forallb_app, Hm, Hk. reflexivity.
Qed.

(** One step through the body of [probe] for a property of its effects;
    [leaf] settles the side condition at an effect. *)
Ltac emits_step leaf :=
  match goal with
  | |- emits_only _ (ret _) => apply emits_only_ret
  | |- emits_only _ (emit _) => apply emits_only_emit; leaf
  | |- emits_only _ (bind _ _) => apply emits_only_bind; [ | intros _ ]
  | |- emits_only _ (if ?c then _ else _) => destruct c eqn:?
  | |- emits_only _ (match ?x with _ => _ end) => destruct x eqn:?
  end.

Ltac unfold_probe :=
  unfold zynqmp_r5_remoteproc_probe, rproc_fault, dma_mask_fault, err_exit,
    dev_err, pr_err, dev_warn, dev_info, dev_dbg, pr_debug;
  cbv zeta beta.

Lemma emits_only_none {A} (p : event -> bool) (m : M A) (s : state) :
  emits_only (fun e => negb (p e)) m ->
  existsb p (emitted m s) = false.
Proof.
  intros H. specialize (H s).
  induction (emitted m s) as [ | e t IH]; [reflexivity | ].
  cbn in *. apply andb_true_iff in H as [He Ht].
  apply negb_true_iff in He. rewrite He. apply IH, Ht.
Qed.

(** X13: [probe] makes no register access: whatever the platform, none of
    its effects is a register read or write. *)
Theorem probe_makes_no_register_access
    (K : kernel_headers) (P : platform) (pdev : platform_device) (s : state) :
  existsb is_reg_access (emitted (zynqmp_r5_remoteproc_probe K P pdev) s) = false.
Proof.
  apply emits_only_none.
  unfold_probe. repeat emits_step reflexivity.
Qed.

(** X14: unless the device tree asks for the direct method, [probe] maps
    no register window (the default method, secure monitor calls,
    included). *)
Theorem probe_maps_windows_only_for_direct
    (K : kernel_headers) (P : platform) (pdev : platform_device) (s : state) :
  method_is_direct P = false ->
  existsb is_ioremap (emitted (zynqmp_r5_remoteproc_probe K P pdev) s) = false.
Proof.
  intros Hnd. apply emits_only_none.
  unfold_probe.
  repeat emits_step
    ltac:(first [ reflexivity
                | exfalso;
                  match goal with
                  | H : _ = Some (HW, _, _) |- _ =>
                      apply method_parse_direct in H; congruence
                  end ]).
Qed.

Lemma probe_maps_windows_only_for_direct_witness :
  existsb is_ioremap
    (emitted (zynqmp_r5_remoteproc_probe kernel_arm64
                (sample_platform "split1" "hvc" "ocm" 79) 7) sample_state) = false.
Proof.
  apply (probe_maps_windows_only_for_direct kernel_arm64
           (sample_platform "split1" "hvc" "ocm" 79) 7 sample_state).
  reflexivity.
Defined.



Lemma firmware_name_chosen (P : platform) (fw : string) :
  match firmware P with
  | Some f => Some f
  | None =>
      match of_get_property P "firmware" with
      | Some p => Some p
      | None => Some DEFAULT_FIRMWARE_NAME
      end
  end = Some fw ->
  fw = firmware_name P.
Proof.
  unfold firmware_name.
  destruct (firmware P); [intros [= <-]; reflexivity | ].
  destruct (of_get_property P "firmware"); intros [= <-]; reflexivity.
Qed.

(** X16: the firmware name [probe] hands to [rproc_alloc] is the module
    parameter when it is set, else the device tree property, else the
    default name: the module parameter takes precedence. *)
Theorem probe_firmware_name_precedence
    (K : kernel_headers) (P : platform) (pdev : platform_device) (s : state)
    (fw : string) :
  In (EvRprocAlloc fw) (emitted (zynqmp_r5_remoteproc_probe K P pdev) s) ->
  fw = firmware_name P.
Proof.
  intros Hin.
  assert (H : emits_only
                (fun e => match e with
                          | EvRprocAlloc f => (f =? firmware_name P)%string
                          | _ => true
                          end)
                (zynqmp_r5_remoteproc_probe K P pdev)).
  { unfold_probe.
    repeat emits_step
      ltac:(first [ reflexivity
                  | match goal with
                    | H : _ = Some ?f |- (?f =? _)%string = true =>
                        apply firmware_name_chosen in H; rewrite <- H;
                        apply String.eqb_refl
                    end ]). }
  specialize (H s). rewrite forallb_forall in H.
  apply H in Hin. apply String.eqb_eq in Hin. exact Hin.
Qed.

Lemma probe_firmware_name_precedence_witness :
  In (EvRprocAlloc "rproc-rpu-fw")
     (emitted (zynqmp_r5_remoteproc_probe kernel_arm64
                 (sample_platform "lock-step" "direct" "tcm" 79) 7) sample_state) /\
  "rproc-rpu-fw" = firmware_name (sample_platform "lock-step" "direct" "tcm" 79).
Proof.
  assert (Hin : In (EvRprocAlloc "rproc-rpu-fw")
                   (emitted (zynqmp_r5_remoteproc_probe kernel_arm64
                               (sample_platform "lock-step" "direct" "tcm" 79) 7)
                            sample_state))
    by (cbn; repeat first [left; reflexivity | right]).
  split; [exact Hin | ].
  exact (probe_firmware_name_precedence kernel_arm64
           (sample_platform "lock-step" "direct" "tcm" 79) 7 sample_state _ Hin).
Defined.

(** ** Release of the declared DMA memory *)

Lemma fails_with_last_built (e : event) (r : Z) (pd : zynqmp_r5_rproc_pdata) :
  fails_with_last e (ret (r, Some pd)).
Proof. intros s H; discriminate H. Qed.

Lemma fails_with_last_bind {A} (e : event) (m : M A)
    (k : A -> M (Z * option zynqmp_r5_rproc_pdata)) :
  (forall a, fails_with_last e (k a)) ->
  fails_with_last e (bind m k).
Proof.
  intros Hk s Hnone. rewrite value_bind in Hnone.
  destruct (Hk _ _ Hnone) as [t Ht].
  exists (emitted m s ++ t). rewrite emitted_bind, Ht, app_assoc. reflexivity.
Qed.

Lemma fails_with_last_dma_mask_fault : fails_with_last EvDmaRelease dma_mask_fault.
Proof. intros s _. exists []. reflexivity. Qed.

Lemma fails_with_last_rproc_fault : fails_with_last EvDmaRelease rproc_fault.
Proof. intros s _. exists [EvRprocPut]. reflexivity. Qed.

Lemma built_only_with_ret (ok : event -> bool) (x : Z * option zynqmp_r5_rproc_pdata) :
  built_only_with ok (ret x).
Proof. intros s _. reflexivity. Qed.

Lemma built_only_with_bind {A} (ok : event -> bool) (m : M A)
    (k : A -> M (Z * option zynqmp_r5_rproc_pdata)) :
  emits_only ok m ->
  (forall a, built_only_with ok (k a)) ->
  built_only_with ok (bind m k).
Proof.
  intros Hm Hk s Hbuilt. rewrite value_bind in Hbuilt.
  rewrite emitted_bind, forallb_app, Hm, (Hk _ _ Hbuilt). reflexivity.
Qed.

Lemma built_only_with_never (ok : event -> bool)
    (m : M (Z * option zynqmp_r5_rproc_pdata)) :
  (forall s, snd (value m s) = None) ->
  built_only_with ok m.
Proof. intros Hnone s Hbuilt. contradiction (Hbuilt (Hnone s)). Qed.

Ltac fails_step :=
  match goal with
  | |- fails_with_last _ dma_mask_fault => apply fails_with_last_dma_mask_fault
  | |- fails_with_last _ rproc_fault => apply fails_with_last_rproc_fault
  | |- fails_with_last _ (ret (_, Some _)) => apply fails_with_last_built
  | |- fails_with_last _ (ret _) =>
      exfalso;
      match goal with
      | H : _ = None |- _ => exact (firmware_name_present _ _ H)
      end
  | |- fails_with_last _ (bind _ _) => apply fails_with_last_bind; intros _
  | |- fails_with_last _ (if ?c then _ else _) => destruct c eqn:?
  | |- fails_with_last _ (match ?x with _ => _ end) => destruct x eqn:?
  end.

Ltac built_step :=
  match goal with
  | |- built_only_with _ dma_mask_fault =>
      apply built_only_with_never; intros ?; reflexivity
  | |- built_only_with _ rproc_fault =>
      apply built_only_with_never; intros ?; reflexivity
  | |- built_only_with _ err_exit =>
      apply built_only_with_never; intros ?; reflexivity
  | |- built_only_with _ (ret _) => apply built_only_with_ret
  | |- built_only_with _ (bind _ _) =>
      apply built_only_with_bind; [ | intros _ ]
  | |- built_only_with _ (if ?c then _ else _) => destruct c
  | |- built_only_with _ (match ?x with _ => _ end) => destruct x
  | |- emits_only _ (ret _) => apply emits_only_ret
  | |- emits_only _ (emit _) => apply emits_only_emit; reflexivity
  | |- emits_only _ (match ?x with _ => _ end) => destruct x
  end.

Lemma probe_failure_releases (K : kernel_headers) (P : platform)
    (pdev : platform_device) (res : resource) :
  devm_kzalloc_ok P = true ->
  platform_get_resource_byname P "vring0" = Some res ->
  (Z.land (dma_declare_coherent_memory P) (DMA_MEMORY_IO K) =? 0) = false ->
  fails_with_last EvDmaRelease (zynqmp_r5_remoteproc_probe K P pdev).
Proof.
  intros Hk Hres Hio.
  unfold zynqmp_r5_remoteproc_probe, dev_err, pr_err, dev_warn, dev_info,
    dev_dbg, pr_debug.
  cbv zeta beta. rewrite Hk, Hres, Hio. cbn [negb].
  repeat fails_step.
Qed.

Lemma probe_built_keeps (K : kernel_headers) (P : platform) (pdev : platform_device) :
  built_only_with (fun e => negb (is_dma_release e || is_rproc_put e))
                  (zynqmp_r5_remoteproc_probe K P pdev).
Proof.
  unfold zynqmp_r5_remoteproc_probe, dev_err, pr_err, dev_warn, dev_info,
    dev_dbg, pr_debug.
  cbv zeta beta.
  repeat built_step.
Qed.

Lemma forallb_negb_orb (p q : event -> bool) (t : list event) :
  forallb (fun e => negb (p e || q e)) t = true ->
  existsb p t = false /\ existsb q t = false.
Proof.
  induction t as [ | e t IH]; [split; reflexivity | ].
  cbn. intros H. apply andb_true_iff in H as [He Ht].
  apply negb_true_iff, orb_false_iff in He as [Hp Hq].
  destruct (IH Ht) as [IHp IHq]. rewrite Hp, Hq, IHp, IHq. split; reflexivity.
Qed.

(** X17: once the DMA memory of the vring is declared, [probe] releases it
    on every path that constructs no instance, as its last effect, and
    never releases it (nor drops the rproc reference) on the path that
    constructs one. The declaration is the first effect. *)
Theorem probe_dma_memory_balance
    (K : kernel_headers) (P : platform) (pdev : platform_device)
    (res : resource) (s : state) :
  devm_kzalloc_ok P = true ->
  platform_get_resource_byname P "vring0" = Some res ->
  (Z.land (dma_declare_coherent_memory P) (DMA_MEMORY_IO K) =? 0) = false ->
  let r := value (zynqmp_r5_remoteproc_probe K P pdev) s in
  let t := emitted (zynqmp_r5_remoteproc_probe K P pdev) s in
  hd_error t = Some (EvDmaDeclare (res_start res) (resource_size res)) /\
  (is_built r = false -> exists t', t = t' ++ [EvDmaRelease]) /\
  (is_built r = true ->
   existsb is_dma_release t = false /\ existsb is_rproc_put t = false).
Proof.
  intros Hk Hres Hio. cbv zeta.
  split; [ | split].
  - unfold zynqmp_r5_remoteproc_probe. rewrite Hk, Hres. cbn [negb].
    rewrite emitted_bind. reflexivity.
  - intros Hnb. apply (probe_failure_releases K P pdev res Hk Hres Hio).
    unfold is_built in Hnb.
    destruct (snd (value (zynqmp_r5_remoteproc_probe K P pdev) s)) eqn:E;
      [discriminate Hnb | exact E].
  - intros Hb. apply forallb_negb_orb. apply probe_built_keeps.
    unfold is_built in Hb.
    destruct (snd (value (zynqmp_r5_remoteproc_probe K P pdev) s)) eqn:E;
      [ | discriminate Hb].
    intros E'. change (snd (value (zynqmp_r5_remoteproc_probe K P pdev) s) = None) in E'.
    congruence.
Qed.

Lemma probe_dma_memory_balance_witness :
  exists t',
    emitted (zynqmp_r5_remoteproc_probe kernel_arm64
               (sample_platform "bogus" "direct" "tcm" 79) 7) sample_state =
    t' ++ [EvDmaRelease].
Proof.
  refine (proj1 (proj2
    (probe_dma_memory_balance kernel_arm64 (sample_platform "bogus" "direct" "tcm" 79) 7
       (mkResource 0x3ed00000 0x3ed03fff) sample_state _ _ _)) _);
    reflexivity.
Defined.

(** ** The configuration the instance is given *)

Lemma core_conf_parse_value (P : platform) (m : rpu_core_conf) (id : Z) :
  let prop := match of_get_property P "core_conf" with
              | Some p => p
              | None => "lock-step"
              end in
  (if (prop =? "split0")%string then Some (SPLIT, 0)
   else if (prop =? "split1")%string then Some (SPLIT, 1)
   else if (prop =? "lock-step")%string then Some (LOCK_STEP, 0)
   else None) = Some (m, id) ->
  is_split m = ((property_or P "core_conf" "lock-step" =? "split0")
                || (property_or P "core_conf" "lock-step" =? "split1"))%string /\
  id = if (property_or P "core_conf" "lock-step" =? "split1")%string then 1 else 0.
Proof.
  cbv zeta. unfold property_or.
  destruct (of_get_property P "core_conf") as [p | ]; [ | intros [= <- <-]; split; reflexivity].
  destruct (String.eqb_spec p "split0") as [-> | _]; [intros [= <- <-]; split; reflexivity | ].
  destruct (String.eqb_spec p "split1") as [-> | _]; [intros [= <- <-]; split; reflexivity | ].
  destruct (String.eqb_spec p "lock-step") as [-> | _]; [intros [= <- <-]; split; reflexivity | ].
  discriminate.
Qed.

Lemma method_parse_value (P : platform)
    (m : control_method) (i : ipi_ops_ptr) (r : rpu_ops_ptr) :
  let prop := match of_get_property P "method" with
              | Some p => p
              | None => "smc"
              end in
  (if (prop =? "direct")%string then Some (HW, addr_ipi_hw_ops, addr_rpu_hw_ops)
   else if (prop =? "hvc")%string then Some (HVC, addr_ipi_hvc_ops, addr_rpu_hvc_ops)
   else if (prop =? "smc")%string then Some (SMC, addr_ipi_smc_ops, addr_rpu_smc_ops)
   else None) = Some (m, i, r) ->
  m = (if (property_or P "method" "smc" =? "direct")%string then HW
       else if (property_or P "method" "smc" =? "hvc")%string then HVC
       else SMC).
Proof.
  cbv zeta. unfold property_or.
  destruct (of_get_property P "method") as [p | ]; [ | intros [= <- <- <-]; reflexivity].
  destruct (p =? "direct")%string; [intros [= <- <- <-]; reflexivity | ].
  destruct (p =? "hvc")%string; [intros [= <- <- <-]; reflexivity | ].
  destruct (p =? "smc")%string; [intros [= <- <- <-]; reflexivity | discriminate].
Qed.

Lemma bootmem_parse_value (P : platform) (b : rpu_bootmem) :
  let prop := match of_get_property P "bootmem" with
              | Some p => p
              | None => "tcm"
              end in
  (if (prop =? "tcm")%string then Some TCM
   else if (prop =? "ocm")%string then Some OCM
   else None) = Some b ->
  is_ocm b = (property_or P "bootmem" "tcm" =? "ocm")%string.
Proof.
  cbv zeta. unfold property_or.
  destruct (of_get_property P "bootmem") as [p | ]; [ | intros [= <-]; reflexivity].
  destruct (String.eqb_spec p "tcm") as [-> | _]; [intros [= <-]; reflexivity | ].
  destruct (p =? "ocm")%string; [intros [= <-]; reflexivity | discriminate].
Qed.

(** X18: how [probe] decodes the device tree into the instance it
    constructs, defaults included. The core is in split mode exactly for
    "split0" and "split1" and has id 1 exactly for "split1" (absent:
    lock-step, id 0); both operation tables are those of the method named,
    "direct", "hvc" or else "smc" (absent: smc); the boot memory is OCM
    exactly for "ocm" (absent: TCM); the destination mask is the property
    truncated to 32 bits, or 0x100 when absent; the interrupt number is the
    answer of [platform_get_irq] truncated to 32 bits. *)
Theorem probe_decodes_configuration
    (K : kernel_headers) (P : platform) (pdev : platform_device) (s : state)
    (pd : zynqmp_r5_rproc_pdata) :
  snd (value (zynqmp_r5_remoteproc_probe K P pdev) s) = Some pd ->
  is_split (rpu_mode pd) =
    ((property_or P "core_conf" "lock-step" =? "split0")
     || (property_or P "core_conf" "lock-step" =? "split1"))%string /\
  rpu_id pd = (if (property_or P "core_conf" "lock-step" =? "split1")%string
               then 1 else 0) /\
  bound_to (if (property_or P "method" "smc" =? "direct")%string then HW
            else if (property_or P "method" "smc" =? "hvc")%string then HVC
            else SMC) pd /\
  is_ocm (bootmem pd) = (property_or P "bootmem" "tcm" =? "ocm")%string /\
  ipi_dest_mask pd = match of_property_read_u32 P "ipi_dest_mask" with
                     | Some v => u32 v
                     | None => 0x100
                     end /\
  vring0 pd = u32 (platform_get_irq P).
Proof.
  revert s pd.
  cut (yields (zynqmp_r5_remoteproc_probe K P pdev)
         (fun r => forall pd, snd r = Some pd ->
            is_split (rpu_mode pd) =
              ((property_or P "core_conf" "lock-step" =? "split0")
               || (property_or P "core_conf" "lock-step" =? "split1"))%string /\
            rpu_id pd = (if (property_or P "core_conf" "lock-step" =? "split1")%string
                         then 1 else 0) /\
            bound_to (if (property_or P "method" "smc" =? "direct")%string then HW
                      else if (property_or P "method" "smc" =? "hvc")%string then HVC
                      else SMC) pd /\
            is_ocm (bootmem pd) = (property_or P "bootmem" "tcm" =? "ocm")%string /\
            ipi_dest_mask pd = match of_property_read_u32 P "ipi_dest_mask" with
                               | Some v => u32 v
                               | None => 0x100
                               end /\
            vring0 pd = u32 (platform_get_irq P))).
  { intros H s pd. apply H. }
  unfold_probe.
  repeat probe_step.
  all: cbn [snd]; intros pd0 Hpd; try discriminate Hpd.
  all: injection Hpd as <-;
       cbn [rpu_mode rpu_id ipi_ops rpu_ops bootmem ipi_dest_mask vring0].
  all: match goal with
       | Hc : _ = Some (?r, ?z), Hm : _ = Some (?c, ?i, ?r0), Hb : _ = Some ?r1 |- _ =>
           pose proof (method_parse_value P _ _ _ Hm) as Em;
           apply method_parse_known in Hm as [_ Kb];
           apply core_conf_parse_value in Hc as [Ec Ez];
           apply bootmem_parse_value in Hb
       end.
  all: rewrite <- Em; cbn [bound_to ipi_ops rpu_ops].
  all: repeat split; try assumption; try (apply Kb).
Qed.

Lemma probe_decodes_configuration_witness :
  rpu_id {| rproc := 1;
            ipi_ops := addr_ipi_hvc_ops;
            rpu_ops := addr_rpu_hvc_ops;
            rpu_mode := SPLIT;
            bootmem := OCM;
            ipi_dest_mask := 0x100;
            rpu_id := 1;
            vring0 := 79 |} = 1.
Proof.
  refine (proj1 (proj2
    (probe_decodes_configuration kernel_arm64 (sample_platform "split1" "hvc" "ocm" 79)
       7 sample_state _ _))).
  reflexivity.
Defined.
